(** * ai-service: task lifecycle, templates, translation and workflow automation

    A shallow embedding of the service layer of the repository
    ([app/services], [app/core/abacus_client.py]) together with the
    properties of the specification that concern it.

    Conventions of the embedding:
    - a coroutine is a function from the state it reads to the state it
      leaves and an outcome, [Return v] or [Raise e];
    - the SQLAlchemy session is a pair of finite maps (tasks and result
      rows) keyed by primary key; [commit], [refresh] and [add] succeed;
    - Python dictionaries that are only carried around are association
      lists of [pyval]; the class-level registries of [AutomationService]
      are a [gmap] and a list held in an explicit state record;
    - a Python [str] is a [string] read as the sequence of its code
      points, each of them below 256; text with other characters is
      outside the embedding;
    - a pydantic schema object is validated when it is constructed, so the
      constructor is a function into [result]. *)

From Stdlib Require Import ZArith NArith QArith Ascii String.
From stdpp Require Import base option list strings pretty gmap.

Local Open Scope string_scope.
Local Open Scope list_scope.

(** ** Python values, exceptions and a few builtins *)

Module Py.

(** JSON-like values held by [Dict] columns and request payloads. *)
#[warnings="-register-all"] Inductive pyval : Type :=
| VNone
| VBool (b : bool)
| VInt (z : Z)
| VFloat (q : Q)
| VStr (s : string)
| VList (l : list pyval)
| VDict (d : list (string * pyval)).

Definition Dict : Type := list (string * pyval).

(** [d.get(key)] *)
Fixpoint dict_get (d : Dict) (key : string) : option pyval :=
  match d with
  | [] => None
  | (k, v) :: d' => if String.eqb k key then Some v else dict_get d' key
  end.

(** Truth value of a dictionary: [bool(d)] is [len(d) != 0]. *)
Definition dict_truthy (d : Dict) : bool :=
  match d with [] => false | _ :: _ => true end.

(** Truth value of a string: [bool(s)] is [len(s) != 0]. *)
Definition str_truthy (s : string) : bool :=
  match s with EmptyString => false | String _ _ => true end.

(** Truth value of a JSON-like value, as [if v:] and [not v] test it. *)
Definition truthy (v : pyval) : bool :=
  match v with
  | VNone => false
  | VBool b => b
  | VInt z => negb (Z.eqb z 0)
  | VFloat q => negb (Qeq_bool q 0)
  | VStr s => str_truthy s
  | VList l => match l with [] => false | _ :: _ => true end
  | VDict d => dict_truthy d
  end.

(** The exception classes the modelled code raises or lets through; all
    of them derive from [Exception].  [ValidationError] is pydantic's. *)
Inductive exn_class : Type :=
| TypeError
| ValueError
| KeyError
| IndexError
| ApiException
| ValidationError
| OtherException (name : string).

(** An exception instance; [exn_str] is what [str(e)] returns (for
    pydantic's [ValidationError], its stable first part). *)
Record exn : Type := mkExn { exn_cls : exn_class; exn_str : string }.

Inductive result (A : Type) : Type :=
| Return (a : A)
| Raise (e : exn).
Arguments Return {A} a.
Arguments Raise {A} e.


(** [xs[start:]] for an integer [start], as CPython's
    [PySlice_AdjustIndices] computes it: a negative start counts from the
    end and is clamped at [0]; a start past the end gives the empty list. *)
Definition slice_from {A} (start : Z) (xs : list A) : list A :=
  let len := Z.of_nat (length xs) in
  let start' :=
    if (start <? 0)%Z
    then (if (start + len <? 0)%Z then 0%Z else (start + len)%Z)
    else (if (len <? start)%Z then len else start) in
  drop (Z.to_nat start') xs.

End Py.
Import Py.

(** ** Identifiers: [uuid.UUID] *)

Module Uuid.

(** A UUID is its 128-bit integer value. *)
Definition UUID : Type := N.

Definition hex_digit (n : N) : ascii :=
  match String.get (N.to_nat n) "0123456789abcdef" with
  | Some c => c
  | None => "0"%char
  end.

(** [digits] lowercase hexadecimal digits of [n], most significant first. *)
Fixpoint hex_fixed (digits : nat) (n : N) : string :=
  match digits with
  | O => ""
  | S d => hex_fixed d (n / 16)%N +:+ String (hex_digit (n mod 16)%N) ""
  end.

(** [str(u)]: the 8-4-4-4-12 hexadecimal form. *)
Definition str_UUID (u : UUID) : string :=
  let h := hex_fixed 32 u in
  substring 0 8 h +:+ "-" +:+ substring 8 4 h +:+ "-" +:+
  substring 12 4 h +:+ "-" +:+ substring 16 4 h +:+ "-" +:+
  substring 20 12 h.

(** [UUID.__init__(hex, bytes, bytes_le, fields, int)].  The constructor
    opens with
    [if [hex, bytes, bytes_le, fields, int].count(None) != 4: raise TypeError(...)];
    each argument that is given is represented by the 128-bit number it
    denotes. *)
Fixpoint count_None (args : list (option N)) : nat :=
  match args with
  | [] => 0
  | None :: rest => S (count_None rest)
  | Some _ :: rest => count_None rest
  end.

Definition UUID_init (hex bytes bytes_le fields int : option N) : result UUID :=
  if negb (Nat.eqb (count_None [hex; bytes; bytes_le; fields; int]) 4)
  then Raise (mkExn TypeError
         "one of the hex, bytes, bytes_le, fields, or int arguments must be given")
  else
    match hex, bytes, bytes_le, fields, int with
    | Some n, _, _, _, _ | _, Some n, _, _, _ | _, _, Some n, _, _
    | _, _, _, Some n, _ | _, _, _, _, Some n => Return n
    | None, None, None, None, None => Return 0%N
    end.

End Uuid.
Import Uuid.

(** ** Workflow automation: [app/services/automation_service.py] *)

Module Automation.

(** [class AutomationWorkflow] *)
Record AutomationWorkflow : Type := mkWorkflow {
  wf_id : UUID;
  wf_name : string;
  workflow_type : string;
  wf_config : Dict;
  wf_schedule : option string;
  wf_is_active : bool;
  wf_created_by : UUID;
  wf_created_at : string
}.

(** The dictionaries appended to [_workflow_history].  The key [result]
    is present in a completed record only and [error] in a failed one. *)
Record execution_record : Type := mkExecution {
  execution_id : string;
  rec_workflow_id : string;
  started_at : string;
  completed_at : string;
  rec_status : string;
  rec_result : option pyval;
  rec_error : option string
}.

(** The two class attributes of [AutomationService]. *)
Record registry : Type := mkRegistry {
  _workflows : gmap UUID AutomationWorkflow;
  _workflow_history : list execution_record
}.

Definition set_workflows (r : registry) (m : gmap UUID AutomationWorkflow) : registry :=
  {| _workflows := m; _workflow_history := _workflow_history r |}.

Definition append_history (r : registry) (e : execution_record) : registry :=
  {| _workflows := _workflows r;
     _workflow_history := _workflow_history r ++ [e] |}.

(** The dictionary [get_workflow] returns. *)
Record workflow_info : Type := mkInfo {
  info_workflow_id : string;
  info_name : string;
  info_workflow_type : string;
  info_config : Dict;
  info_schedule : option string;
  info_is_active : bool;
  info_created_by : string;
  info_created_at : string
}.

Definition info_of (w : AutomationWorkflow) : workflow_info :=
  {| info_workflow_id := str_UUID (wf_id w);
     info_name := wf_name w;
     info_workflow_type := workflow_type w;
     info_config := wf_config w;
     info_schedule := wf_schedule w;
     info_is_active := wf_is_active w;
     info_created_by := str_UUID (wf_created_by w);
     info_created_at := wf_created_at w |}.

Definition get_workflow (r : registry) (workflow_id : UUID) : option workflow_info :=
  info_of <$> _workflows r !! workflow_id.

(** [update_workflow]: the four guarded assignments on the stored object,
    then [get_workflow].  The object is mutated in place, so the registry
    holds the updated workflow under the same key. *)
Definition apply_update (w : AutomationWorkflow)
    (name : option string) (config : option Dict)
    (schedule : option string) (is_active : option bool) : AutomationWorkflow :=
  let w1 :=
    match name with
    | Some n => if str_truthy n then
        mkWorkflow (wf_id w) n (workflow_type w) (wf_config w) (wf_schedule w)
                   (wf_is_active w) (wf_created_by w) (wf_created_at w)
        else w
    | None => w
    end in
  let w2 :=
    match config with
    | Some c => if dict_truthy c then
        mkWorkflow (wf_id w1) (wf_name w1) (workflow_type w1) c (wf_schedule w1)
                   (wf_is_active w1) (wf_created_by w1) (wf_created_at w1)
        else w1
    | None => w1
    end in
  let w3 :=
    match schedule with
    | Some s =>
        mkWorkflow (wf_id w2) (wf_name w2) (workflow_type w2) (wf_config w2) (Some s)
                   (wf_is_active w2) (wf_created_by w2) (wf_created_at w2)
    | None => w2
    end in
  match is_active with
  | Some b =>
      mkWorkflow (wf_id w3) (wf_name w3) (workflow_type w3) (wf_config w3) (wf_schedule w3)
                 b (wf_created_by w3) (wf_created_at w3)
  | None => w3
  end.

Definition update_workflow (r : registry) (workflow_id : UUID)
    (name : option string) (config : option Dict)
    (schedule : option string) (is_active : option bool)
  : registry * option workflow_info :=
  match _workflows r !! workflow_id with
  | None => (r, None)
  | Some w =>
      let r' := set_workflows r
                  (<[workflow_id := apply_update w name config schedule is_active]>
                     (_workflows r)) in
      (r', get_workflow r' workflow_id)
  end.

(** [get_workflow_history]: the comprehension over [_workflow_history]
    followed by [history[-limit:]]. *)
Definition history_of (r : registry) (workflow_id : UUID) : list execution_record :=
  filter (fun rec => rec_workflow_id rec = str_UUID workflow_id) (_workflow_history r).

Definition get_workflow_history (r : registry) (workflow_id : UUID) (limit : Z)
  : list execution_record :=
  slice_from (- limit) (history_of r workflow_id).

(** What [trigger_workflow] reaches outside the orchestrator, over a world
    [W] holding the database session and the clock:
    [datetime.utcnow().isoformat()], and the two domain services the
    built-in handlers delegate to.  [auto_translate_content] stands for
    [TranslationService.auto_translate_content] applied to
    [parse_uuid(content_id)]; [generate_social_post] for
    [ContentGenerationService.generate_social_post] with the five
    parameters read from the workflow's config. *)
Record Services (W : Type) : Type := mkServices {
  utcnow : W -> string;
  auto_translate_content : W -> pyval -> pyval -> UUID -> W * result pyval;
  generate_social_post :
    W -> pyval -> pyval -> pyval -> pyval -> pyval -> UUID -> W * result pyval
}.
Arguments mkServices {W} _ _ _.
Arguments utcnow {W} _ _.
Arguments auto_translate_content {W} _ _ _ _ _.
Arguments generate_social_post {W} _ _ _ _ _ _ _ _.

(** [config.get(key, default)] *)
Definition get_default (d : Dict) (key : string) (default : pyval) : pyval :=
  match dict_get d key with Some v => v | None => default end.

Definition _execute_auto_translate {W} (S : Services W) (w : W)
    (workflow : AutomationWorkflow) (trigger_data : option Dict) (created_by : UUID)
  : W * result pyval :=
  let content_id :=
    match trigger_data with
    | Some d => if dict_truthy d then get_default d "content_id" VNone else VNone
    | None => VNone
    end in
  let target_languages :=
    get_default (wf_config workflow) "target_languages"
      (VList [VStr "es"; VStr "fr"; VStr "pt"]) in
  if negb (truthy content_id)
  then (w, Raise (mkExn ValueError "content_id required for auto_translate workflow"))
  else auto_translate_content S w content_id target_languages created_by.

Definition _execute_scheduled_post {W} (S : Services W) (w : W)
    (workflow : AutomationWorkflow) (trigger_data : option Dict) (created_by : UUID)
  : W * result pyval :=
  let config := wf_config workflow in
  generate_social_post S w
    (get_default config "platform" (VStr "facebook"))
    (get_default config "topic" (VStr ""))
    (get_default config "tone" (VStr "professional"))
    (get_default config "max_length" (VInt 500))
    (get_default config "include_hashtags" (VBool true))
    created_by.

(** The [if]/[elif]/[else] on [workflow.workflow_type] inside the [try]. *)
Definition dispatch {W} (S : Services W) (w : W)
    (workflow : AutomationWorkflow) (trigger_data : option Dict) (created_by : UUID)
  : W * result pyval :=
  if String.eqb (workflow_type workflow) "auto_translate"
  then _execute_auto_translate S w workflow trigger_data created_by
  else if String.eqb (workflow_type workflow) "scheduled_post"
  then _execute_scheduled_post S w workflow trigger_data created_by
  else (w, Return (VDict [("message", VStr "Workflow type not implemented")])).

(** The body of [trigger_workflow] from the point where the execution id is
    built; [new_id] is the outcome of the expression that builds the
    identifier.  An exception there is outside the [try] and leaves the
    function at once. *)
Definition run_workflow {W} (S : Services W) (new_id : result UUID) (w : W) (r : registry)
    (workflow_id : UUID) (workflow : AutomationWorkflow)
    (trigger_data : option Dict) (created_by : UUID)
  : W * registry * result execution_record :=
  match new_id with
  | Raise e => (w, r, Raise e)
  | Return u =>
      let execution_id := str_UUID u in
      let start_time := utcnow S w in
      match dispatch S w workflow trigger_data created_by with
      | (w', Return res) =>
          let execution_record :=
            {| execution_id := execution_id;
               rec_workflow_id := str_UUID workflow_id;
               started_at := start_time;
               completed_at := utcnow S w';
               rec_status := "completed";
               rec_result := Some res;
               rec_error := None |} in
          (w', append_history r execution_record, Return execution_record)
      | (w', Raise e) =>
          let execution_record :=
            {| execution_id := execution_id;
               rec_workflow_id := str_UUID workflow_id;
               started_at := start_time;
               completed_at := utcnow S w';
               rec_status := "failed";
               rec_result := None;
               rec_error := Some (exn_str e) |} in
          (w', append_history r execution_record, Raise e)
      end
  end.

(** [trigger_workflow]: the two guards, then [execution_id = str(UUID())]
    and the recorded dispatch. *)
Definition trigger_workflow {W} (S : Services W) (w : W) (r : registry)
    (workflow_id : UUID) (trigger_data : option Dict) (created_by : UUID)
  : W * registry * result execution_record :=
  match _workflows r !! workflow_id with
  | None =>
      (w, r, Raise (mkExn ValueError ("Workflow " +:+ str_UUID workflow_id +:+ " not found")))
  | Some workflow =>
      if negb (wf_is_active workflow)
      then (w, r, Raise (mkExn ValueError
                           ("Workflow " +:+ str_UUID workflow_id +:+ " is not active")))
      else run_workflow S (UUID_init None None None None None) w r
             workflow_id workflow trigger_data created_by
  end.

End Automation.

(** ** The provider gateway: [app/core/abacus_client.py], [app/core/config.py] *)

Module Gateway.

Definition ABACUS_AI_DEPLOYMENT_TOKEN : string := "your-deployment-token".
Definition ABACUS_AI_DEPLOYMENT_ID : string := "your-deployment-id".

(** The keyword arguments of [self.client.chat_llm]. *)
Record chat_request : Type := mkChat {
  deployment_token : string;
  deployment_id : string;
  system_content : string;
  user_content : string;
  max_tokens : Z;
  temperature : Q
}.

(** The external provider over a world [W]: [time.time()] in seconds, and
    the blocking call [chat_llm], which moves the world on (time passes
    while it runs) and returns a dictionary or raises. *)
Record Provider (W : Type) : Type := mkProvider {
  time : W -> Q;
  chat_llm : W -> chat_request -> W * result Dict
}.
Arguments mkProvider {W} _ _.
Arguments time {W} _ _.
Arguments chat_llm {W} _ _ _.

(** [type(v).__name__] *)
Definition type_name (v : pyval) : string :=
  match v with
  | VNone => "NoneType"
  | VBool _ => "bool"
  | VInt _ => "int"
  | VFloat _ => "float"
  | VStr _ => "str"
  | VList _ => "list"
  | VDict _ => "dict"
  end.

Definition AttributeError (v : pyval) (attr : string) : exn :=
  mkExn (OtherException "AttributeError")
        ("'" +:+ type_name v +:+ "' object has no attribute '" +:+ attr +:+ "'").

(** [result.get("usage", {}).get("total_tokens", 0)] *)
Definition total_tokens (res : Dict) : result pyval :=
  match Automation.get_default res "usage" (VDict []) with
  | VDict usage => Return (Automation.get_default usage "total_tokens" (VInt 0))
  | v => Raise (AttributeError v "get")
  end.

(** [generate_text]: one awaited provider call inside [try]; both [except]
    clauses log and re-raise.  Nothing else is awaited and no deadline is
    set on the call. *)
Definition chat_request_of (prompt : string) (max_tokens : Z) (temperature : Q)
    (system_message : option string) : chat_request :=
  let system :=
    match system_message with
    | Some m => if str_truthy m then m else "You are a helpful AI assistant."
    | None => "You are a helpful AI assistant."
    end in
  mkChat ABACUS_AI_DEPLOYMENT_TOKEN ABACUS_AI_DEPLOYMENT_ID
         system prompt max_tokens temperature.

Definition generate_text {W} (P : Provider W) (w : W) (prompt : string)
    (max_tokens : Z) (temperature : Q) (system_message : option string)
  : W * result Dict :=
  match chat_llm P w (chat_request_of prompt max_tokens temperature system_message) with
  | (w', Return res) =>
      match total_tokens res with
      | Return tokens =>
          (w', Return [("text", Automation.get_default res "content" (VStr ""));
                       ("tokens_used", tokens);
                       ("model_used", Automation.get_default res "model" (VStr "unknown"))])
      | Raise e => (w', Raise e)
      end
  | (w', Raise e) => (w', Raise e)
  end.

(** [str.strip()] removes the characters for which [str.isspace] holds; of
    the code points below 256 these are 9..13, 28..32, 133 and 160. *)
Definition is_space (c : ascii) : bool :=
  let n := nat_of_ascii c in
  ((9 <=? n) && (n <=? 13) || (28 <=? n) && (n <=? 32) || (n =? 133) || (n =? 160))%nat.

Fixpoint lstrip (s : string) : string :=
  match s with
  | String c rest => if is_space c then lstrip rest else s
  | EmptyString => EmptyString
  end.

Definition strip (s : string) : string :=
  String.rev (lstrip (String.rev (lstrip s))).

Definition lang_name (code : string) : string :=
  if String.eqb code "en" then "English"
  else if String.eqb code "es" then "Spanish"
  else if String.eqb code "fr" then "French"
  else if String.eqb code "pt" then "Portuguese"
  else code.

Definition newline : string := String (ascii_of_nat 10) "".

Definition translation_prompt (text source_lang target_lang : string) : string :=
  "Translate the following text from " +:+ lang_name source_lang +:+ " to "
  +:+ lang_name target_lang +:+ "." +:+ newline
  +:+ "Provide ONLY the translation, no explanations." +:+ newline +:+ newline
  +:+ "Text to translate:" +:+ newline +:+ text +:+ newline +:+ newline
  +:+ "Translation:".

(** What [translate_text] returns: the dictionary with exactly the keys
    [translated_text], [tokens_used] and [quality_score]. *)
Record translation : Type := mkTranslation {
  tr_translated_text : string;
  tr_tokens_used : pyval;
  tr_quality_score : Q
}.

Definition translation_dict (t : translation) : Dict :=
  [("translated_text", VStr (tr_translated_text t));
   ("tokens_used", tr_tokens_used t);
   ("quality_score", VFloat (tr_quality_score t))].

(** [translate_text]: [generate_text] with the translation prompt, the
    default [max_tokens] and temperature [0.3]; then [result["text"].strip()]. *)
Definition translate_request (text source_lang target_lang : string) : chat_request :=
  chat_request_of (translation_prompt text source_lang target_lang)
    1000 (3 # 10) (Some "You are a professional translator.").

Definition translate_text {W} (P : Provider W) (w : W)
    (text source_lang target_lang : string) : W * result translation :=
  match generate_text P w (translation_prompt text source_lang target_lang)
          1000 (3 # 10) (Some "You are a professional translator.") with
  | (w', Return res) =>
      match dict_get res "text" with
      | Some (VStr s) =>
          match dict_get res "tokens_used" with
          | Some tokens => (w', Return (mkTranslation (strip s) tokens (85 # 100)))
          | None => (w', Raise (mkExn KeyError "'tokens_used'"))
          end
      | Some v => (w', Raise (AttributeError v "strip"))
      | None => (w', Raise (mkExn KeyError "'text'"))
      end
  | (w', Raise e) => (w', Raise e)
  end.

End Gateway.

(** ** Tasks: [app/models/ai_task.py], [app/services/ai_task_service.py] *)

Module Tasks.

Inductive TaskType : Type :=
| CONTENT_GENERATION | TRANSLATION | IMAGE_GENERATION | CONTENT_ENHANCEMENT | AUTOMATION.

Inductive TaskStatus : Type :=
| PENDING | PROCESSING | COMPLETED | FAILED | CANCELLED.

#[global] Instance TaskStatus_eq_dec : EqDecision TaskStatus.
Proof. solve_decision. Defined.

(** A row of [ai_tasks]; a nullable column is an [option]. *)
Record AITask : Type := mkTask {
  t_id : UUID;
  task_type : TaskType;
  status : TaskStatus;
  input_data : Dict;
  output_data : option Dict;
  prompt : option string;
  model_used : option string;
  tokens_used : option pyval;
  processing_time : option Q;
  error_message : option string;
  requires_approval : bool;
  approved : bool;
  approved_by : option UUID;
  approved_at : option string;
  created_by : UUID
}.

Inductive TranslationStatus : Type :=
| TS_PENDING | TS_PROCESSING | TS_COMPLETED | TS_FAILED.

(** A row of [translation_jobs]. *)
Record TranslationJob : Type := mkJob {
  j_id : UUID;
  j_task_id : UUID;
  source_language : string;
  target_language : string;
  source_text : string;
  translated_text : option string;
  j_status : TranslationStatus;
  quality_score : option Q;
  j_error_message : option string
}.

(** The committed database: the two tables, and the supply of primary
    keys that stands for the column default [uuid4]. *)
Record Session : Type := mkSession {
  tasks : gmap UUID AITask;
  translation_jobs : gmap UUID TranslationJob;
  next_uuid : UUID
}.

Definition uuid4 (db : Session) : UUID * Session :=
  (next_uuid db, mkSession (tasks db) (translation_jobs db) (N.succ (next_uuid db))).

(** Committing a task or a job writes the row under its primary key. *)
Definition put_task (db : Session) (key : UUID) (t : AITask) : Session :=
  mkSession (<[key := t]> (tasks db)) (translation_jobs db) (next_uuid db).

Definition put_job (db : Session) (key : UUID) (j : TranslationJob) : Session :=
  mkSession (tasks db) (<[key := j]> (translation_jobs db)) (next_uuid db).

(** [AITaskCreate] ([app/schemas/ai_task.py]): [task_type], [input_data]
    and [created_by] are required ([Field(...)]); [prompt] defaults to
    [None] and [requires_approval] to [True]. *)
Record AITaskCreate : Type := mkCreate {
  c_task_type : TaskType;
  c_input_data : Dict;
  c_prompt : option string;
  c_requires_approval : bool;
  c_created_by : UUID
}.

(** The [ValidationError] pydantic raises for one required field that is
    not given.  Its text goes on with an echo of the input and a link to
    the documentation, which vary with the input and the library version;
    [exn_str] stops before them. *)
Definition missing_field (model field : string) : exn :=
  mkExn ValidationError
    ("1 validation error for " +:+ model +:+ Gateway.newline +:+ field
     +:+ Gateway.newline +:+ "  Field required").

(** [AITaskCreate(task_type=..., input_data=..., prompt=...,
    requires_approval=..., created_by=...)].  The first two keywords are
    passed by every caller; each of the others is [None] when the call does
    not pass it.  A call without [created_by] raises. *)
Definition AITaskCreate_init (task_type : TaskType) (input_data : Dict)
    (prompt : option string) (requires_approval : option bool) (created_by : option UUID)
  : result AITaskCreate :=
  match created_by with
  | Some u =>
      Return (mkCreate task_type input_data prompt (default true requires_approval) u)
  | None => Raise (missing_field "AITaskCreate" "created_by")
  end.

(** [AITaskService.create_task]: a [PENDING] row with the column defaults.
    The creator is the argument [created_by] of the call, here [by_user];
    the field of that name in [task_data] is not read. *)
Definition create_task (db : Session) (task_data : AITaskCreate) (by_user : UUID)
  : Session * AITask :=
  let '(new_id, db1) := uuid4 db in
  let task :=
    {| t_id := new_id;
       task_type := c_task_type task_data;
       status := PENDING;
       input_data := c_input_data task_data;
       output_data := None;
       prompt := c_prompt task_data;
       model_used := None;
       tokens_used := None;
       processing_time := None;
       error_message := None;
       requires_approval := c_requires_approval task_data;
       approved := false;
       approved_by := None;
       approved_at := None;
       created_by := by_user |} in
  (put_task db1 new_id task, task).

Definition get_task (db : Session) (task_id : UUID) : option AITask :=
  tasks db !! task_id.

(** [task.status = s] *)
Definition set_status (t : AITask) (s : TaskStatus) : AITask :=
  mkTask (t_id t) (task_type t) s (input_data t) (output_data t) (prompt t)
         (model_used t) (tokens_used t) (processing_time t) (error_message t)
         (requires_approval t) (approved t) (approved_by t) (approved_at t) (created_by t).

(** [task.error_message = m] *)
Definition set_error_message (t : AITask) (m : string) : AITask :=
  mkTask (t_id t) (task_type t) (status t) (input_data t) (output_data t) (prompt t)
         (model_used t) (tokens_used t) (processing_time t) (Some m)
         (requires_approval t) (approved t) (approved_by t) (approved_at t) (created_by t).

(** [approve_task]; [now] is [datetime.utcnow()] at the call. *)
Definition approve_task (db : Session) (task_id : UUID) (by_user : UUID) (now : string)
  : Session * option AITask :=
  match get_task db task_id with
  | None => (db, None)
  | Some t =>
      let t' :=
        mkTask (t_id t) (task_type t) (status t) (input_data t) (output_data t) (prompt t)
               (model_used t) (tokens_used t) (processing_time t) (error_message t)
               (requires_approval t) true (Some by_user) (Some now) (created_by t) in
      (put_task db task_id t', Some t')
  end.

(** [reason or 'No reason provided'] *)
Definition reason_or_default (reason : option string) : string :=
  match reason with
  | Some r => if str_truthy r then r else "No reason provided"
  | None => "No reason provided"
  end.

(** [reject_task]: the two assignments are unconditional. *)
Definition reject_task (db : Session) (task_id : UUID) (rejected_by : UUID)
    (reason : option string) : Session * option AITask :=
  match get_task db task_id with
  | None => (db, None)
  | Some t =>
      let t' := set_error_message (set_status t CANCELLED)
                  ("Rejected by user: " +:+ reason_or_default reason) in
      (put_task db task_id t', Some t')
  end.

End Tasks.

(** ** Translation: [app/services/translation_service.py] *)

Module Translation.
Import Gateway Tasks.

Definition SUPPORTED_LANGUAGES : list string := ["en"; "es"; "fr"; "pt"].

Definition supported (lang : string) : bool :=
  bool_decide (lang ∈ SUPPORTED_LANGUAGES).

(** The assignments of the success branch on [task]. *)
Definition complete (t : AITask) (res : translation) (elapsed : Q) : AITask :=
  mkTask (t_id t) (task_type t) COMPLETED (input_data t) (Some (translation_dict res))
         (prompt t) (model_used t) (Some (tr_tokens_used res)) (Some elapsed)
         (error_message t) (requires_approval t) (approved t) (approved_by t)
         (approved_at t) (created_by t).

(** The assignments of the [except] branch on [task]. *)
Definition fail (t : AITask) (e : exn) : AITask :=
  set_error_message (set_status t FAILED) (exn_str e).

Definition complete_job (j : TranslationJob) (res : translation) : TranslationJob :=
  mkJob (j_id j) (j_task_id j) (source_language j) (target_language j) (source_text j)
        (Some (tr_translated_text res)) TS_COMPLETED (Some (tr_quality_score res))
        (j_error_message j).

Definition fail_job (j : TranslationJob) (e : exn) : TranslationJob :=
  mkJob (j_id j) (j_task_id j) (source_language j) (target_language j) (source_text j)
        (translated_text j) TS_FAILED (quality_score j) (Some (exn_str e)).

(** [TranslationService.translate] from the call of [create_task] on, for
    a schema object [task_data].  The job row is added and committed
    together with [status = PROCESSING], before the provider is called. *)
Definition translate_with {W} (P : Provider W) (w : W) (db : Session)
    (text source_lang target_lang : string) (by_user : UUID) (task_data : AITaskCreate)
  : W * Session * result Dict :=
    let '(db1, task) := create_task db task_data by_user in
    let '(job_id, db2) := uuid4 db1 in
    let translation_job :=
      {| j_id := job_id;
         j_task_id := t_id task;
         source_language := source_lang;
         target_language := target_lang;
         source_text := text;
         translated_text := None;
         j_status := TS_PROCESSING;
         quality_score := None;
         j_error_message := None |} in
    let task := set_status task PROCESSING in
    let db3 := put_job (put_task db2 (t_id task) task) job_id translation_job in
    let start_time := time P w in
    match translate_text P w text source_lang target_lang with
    | (w', Return res) =>
        let elapsed := (time P w' - start_time)%Q in
        let task := complete task res elapsed in
        let translation_job := complete_job translation_job res in
        (w', put_job (put_task db3 (t_id task) task) job_id translation_job,
         Return [("task_id", VStr (str_UUID (t_id task)));
                 ("translation_id", VStr (str_UUID (j_id translation_job)));
                 ("translated_text", VStr (tr_translated_text res));
                 ("quality_score", VFloat (tr_quality_score res));
                 ("status", VStr "completed")])
    | (w', Raise e) =>
        let task := fail task e in
        let translation_job := fail_job translation_job e in
        (w', put_job (put_task db3 (t_id task) task) job_id translation_job, Raise e)
    end.

(** [TranslationService.translate].  After the two language checks the
    argument [task_data] of [create_task] is evaluated:
    [AITaskCreate(task_type=..., input_data=..., prompt="", requires_approval=False)],
    with no [created_by].  This stands before the [try]. *)
Definition translate {W} (P : Provider W) (w : W) (db : Session)
    (text source_lang target_lang : string) (by_user : UUID)
  : W * Session * result Dict :=
  if negb (supported source_lang)
  then (w, db, Raise (mkExn ValueError ("Unsupported source language: " +:+ source_lang)))
  else if negb (supported target_lang)
  then (w, db, Raise (mkExn ValueError ("Unsupported target language: " +:+ target_lang)))
  else
    match AITaskCreate_init TRANSLATION
            [("text", VStr text); ("source_lang", VStr source_lang);
             ("target_lang", VStr target_lang)]
            (Some "") (Some false) None with
    | Return task_data => translate_with P w db text source_lang target_lang by_user task_data
    | Raise e => (w, db, Raise e)
    end.

(** [batch_translate]: the loop with its [try]/[except Exception]. *)
Fixpoint batch_loop {W} (P : Provider W) (w : W) (db : Session) (texts : list string)
    (source_lang target_lang : string) (by_user : UUID) (results : list Dict)
  : W * Session * list Dict :=
  match texts with
  | [] => (w, db, results)
  | text :: rest =>
      match translate P w db text source_lang target_lang by_user with
      | (w', db', Return res) =>
          batch_loop P w' db' rest source_lang target_lang by_user (results ++ [res])
      | (w', db', Raise e) =>
          batch_loop P w' db' rest source_lang target_lang by_user
            (results ++ [[("error", VStr (exn_str e)); ("text", VStr text)]])
      end
  end.

Definition batch_translate {W} (P : Provider W) (w : W) (db : Session) (texts : list string)
    (source_lang target_lang : string) (by_user : UUID)
  : W * Session * result (list Dict) :=
  let '(w', db', results) := batch_loop P w db texts source_lang target_lang by_user [] in
  (w', db', Return results).


End Translation.

(** ** Content templates: [app/models/content_template.py],
    [app/services/content_template_service.py] *)

Module Templates.

Definition lbrace : ascii := "{"%char.
Definition rbrace : ascii := "}"%char.

(** [re.findall(r"\{([^}]+)\}", text)], scanning left to right.  [group]
    is [None] outside a match and [Some g] after an opening brace, [g]
    being the characters read since.  A closing brace ends the group; an
    empty group is no match ([[^}]+] needs one character) and the scan
    resumes at the closing brace; a group that is never closed matches
    nowhere. *)
Fixpoint findall_from (s : string) (group : option string) : list string :=
  match s with
  | EmptyString => []
  | String c rest =>
      match group with
      | None =>
          if Ascii.eqb c lbrace then findall_from rest (Some "")
          else findall_from rest None
      | Some g =>
          if Ascii.eqb c rbrace then
            match g with
            | EmptyString => findall_from rest None
            | String _ _ => g :: findall_from rest None
            end
          else findall_from rest (Some (g +:+ String c ""))
      end
  end.

Definition findall (text : string) : list string := findall_from text None.

(** [list(set(matches))]: the elements of the list, each once, in the
    order in which the interpreter happens to iterate the set. *)
Record SetOrder : Type := mkSetOrder {
  list_of_set : list string -> list string;
  list_of_set_NoDup : ∀ l, NoDup (list_of_set l);
  list_of_set_elem : ∀ l x, x ∈ list_of_set l ↔ x ∈ l
}.

Definition extract_variables (O : SetOrder) (template_text : string) : list string :=
  list_of_set O (findall template_text).

(** A row of [content_templates]. *)
Record ContentTemplate : Type := mkTemplate {
  ct_id : UUID;
  name : string;
  template_type : string;
  description : option string;
  prompt_template : string;
  variables : list string;
  language : string;
  platform : option string;
  is_active : bool;
  usage_count : Z;
  ct_created_by : UUID
}.

(** The fields of [ContentTemplateCreate] that the request can set. *)
Record ContentTemplateCreate : Type := mkTemplateCreate {
  cc_name : string;
  cc_template_type : string;
  cc_description : option string;
  cc_prompt_template : string;
  cc_variables : list string;
  cc_language : string;
  cc_platform : option string;
  cc_is_active : bool
}.

(** [ContentTemplateUpdate] after [model_dump(exclude_unset=True)]: a field
    is absent ([None]), or present with the value [null] ([Some None]) or
    with a value. *)
Record ContentTemplateUpdate : Type := mkTemplateUpdate {
  u_name : option (option string);
  u_description : option (option string);
  u_prompt_template : option (option string);
  u_variables : option (option (list string));
  u_language : option (option string);
  u_platform : option (option string);
  u_is_active : option (option bool)
}.

Record TemplateStore : Type := mkStore {
  templates : gmap UUID ContentTemplate;
  next_template_id : UUID
}.

(** [create_template]: [variables] comes from the prompt, never from the
    request; [is_active] and [usage_count] are fixed. *)
Definition create_template (O : SetOrder) (db : TemplateStore)
    (template_data : ContentTemplateCreate) (by_user : UUID)
  : TemplateStore * ContentTemplate :=
  let variables := extract_variables O (cc_prompt_template template_data) in
  let template :=
    {| ct_id := next_template_id db;
       name := cc_name template_data;
       template_type := cc_template_type template_data;
       description := cc_description template_data;
       prompt_template := cc_prompt_template template_data;
       variables := variables;
       language := cc_language template_data;
       platform := cc_platform template_data;
       is_active := true;
       usage_count := 0;
       ct_created_by := by_user |} in
  (mkStore (<[next_template_id db := template]> (templates db))
           (N.succ (next_template_id db)),
   template).

Definition get_template (db : TemplateStore) (template_id : UUID) : option ContentTemplate :=
  templates db !! template_id.

(** [setattr] on a column that is [nullable=False]: [null] is refused when
    the session commits. *)
Definition set_required {A} (old : A) (u : option (option A)) : option A :=
  match u with
  | None => Some old
  | Some (Some v) => Some v
  | Some None => None
  end.

(** [setattr] on a nullable column. *)
Definition set_nullable {A} (old : option A) (u : option (option A)) : option A :=
  match u with
  | None => old
  | Some v => v
  end.

(** The [variables] entry of [update_data] after the re-extraction step:
    when [prompt_template] is present the entry is overwritten by the
    variables of the new prompt. *)
Definition update_variables (O : SetOrder) (upd : ContentTemplateUpdate)
  : option (option (list string)) :=
  match u_prompt_template upd with
  | Some (Some p) => Some (Some (extract_variables O p))
  | _ => u_variables upd
  end.

(** The loop of [setattr] calls followed by [commit]. *)
Definition apply_update (O : SetOrder) (t : ContentTemplate) (upd : ContentTemplateUpdate)
  : option ContentTemplate :=
  name' ← set_required (name t) (u_name upd);
  prompt' ← set_required (prompt_template t) (u_prompt_template upd);
  variables' ← set_required (variables t) (update_variables O upd);
  language' ← set_required (language t) (u_language upd);
  active' ← set_required (is_active t) (u_is_active upd);
  Some (mkTemplate (ct_id t) name' (template_type t)
          (set_nullable (description t) (u_description upd))
          prompt' variables' language'
          (set_nullable (platform t) (u_platform upd))
          active' (usage_count t) (ct_created_by t)).

(** [update_template].  A [prompt_template] that is present but [null]
    makes [re.findall] raise [TypeError] before anything is assigned. *)
Definition update_template (O : SetOrder) (db : TemplateStore) (template_id : UUID)
    (upd : ContentTemplateUpdate) : TemplateStore * result (option ContentTemplate) :=
  match get_template db template_id with
  | None => (db, Return None)
  | Some t =>
      match u_prompt_template upd with
      | Some None =>
          (db, Raise (mkExn TypeError "expected string or bytes-like object, got 'NoneType'"))
      | _ =>
          match apply_update O t upd with
          | Some t' =>
              (mkStore (<[template_id := t']> (templates db)) (next_template_id db),
               Return (Some t'))
          | None =>
              (db, Raise (mkExn (OtherException "IntegrityError")
                                "null value violates not-null constraint"))
          end
      end
  end.

(** *** [str.format] with [variables] as keyword arguments *)

Definition is_digit (c : ascii) : bool :=
  let n := nat_of_ascii c in ((48 <=? n) && (n <=? 57))%nat.

Fixpoint all_digits (s : string) : bool :=
  match s with
  | EmptyString => true
  | String c rest => is_digit c && all_digits rest
  end.

(** [PY_SSIZE_T_MAX] of a 64-bit build. *)
Definition PY_SSIZE_T_MAX : N := (2 ^ 63 - 1)%N.

(** What [get_integer] makes of the first part of a field name: not a
    number, a number too long to hold, or an index. *)
Inductive integer_parse : Type :=
| NotInteger
| TooManyDigits
| Index (n : N).

(** The loop of [get_integer]: the characters are read in order; one that
    is not a decimal digit ends the scan with "not a number", and the
    overflow test comes before each digit is added, so a long run of
    digits is an error even when a letter follows it.  Of the code points
    below 256 only [0]..[9] are decimal digits. *)
Fixpoint get_integer_from (s : string) (accumulator : N) : integer_parse :=
  match s with
  | EmptyString => Index accumulator
  | String c rest =>
      if is_digit c then
        let digitval := N.of_nat (nat_of_ascii c - 48) in
        if ((PY_SSIZE_T_MAX - digitval) / 10 <? accumulator)%N then TooManyDigits
        else get_integer_from rest (accumulator * 10 + digitval)%N
      else NotInteger
  end.

Definition get_integer (s : string) : integer_parse :=
  match s with
  | EmptyString => NotInteger
  | String _ _ => get_integer_from s 0
  end.

Definition quote : ascii := "'"%char.
Definition dquote : ascii := ascii_of_nat 34.
Definition backslash : ascii := ascii_of_nat 92.

Fixpoint contains (c : ascii) (s : string) : bool :=
  match s with
  | EmptyString => false
  | String c' rest => Ascii.eqb c c' || contains c rest
  end.

(** [repr] of a string: the quote is the apostrophe unless the text has an
    apostrophe and no double quote; the backslash and the quote are
    escaped, and so are the characters that are not printable, which below
    256 are 0..31, 127..160 and 173. *)
Definition repr_char (q c : ascii) : string :=
  let n := nat_of_ascii c in
  if Ascii.eqb c backslash then String backslash (String backslash "")
  else if Ascii.eqb c q then String backslash (String q "")
  else if (n =? 9)%nat then String backslash "t"
  else if (n =? 10)%nat then String backslash "n"
  else if (n =? 13)%nat then String backslash "r"
  else if ((n <? 32) || (127 <=? n) && (n <=? 160) || (n =? 173))%nat then
    String backslash ("x" +:+ String (hex_digit (N.of_nat (n / 16)))
                                (String (hex_digit (N.of_nat (n mod 16))) ""))
  else String c "".

Fixpoint repr_body (q : ascii) (s : string) : string :=
  match s with
  | EmptyString => ""
  | String c rest => repr_char q c +:+ repr_body q rest
  end.

Definition repr (s : string) : string :=
  let q := if contains quote s && negb (contains dquote s) then dquote else quote in
  String q (repr_body q s +:+ String q "").

(** [format(v, "")] for the values whose text the model gives. *)
Definition str_of (v : pyval) : option string :=
  match v with
  | VStr s => Some s
  | VInt z => Some (pretty z)
  | VBool true => Some "True"
  | VBool false => Some "False"
  | VNone => Some "None"
  | VFloat _ | VList _ | VDict _ => None
  end.

(** The outcome of formatting: the text, an exception, or a template that
    uses a part of the format mini-language that is not modelled
    (attribute and index access, conversions, format specifications,
    values other than strings, integers, booleans and [None]). *)
Inductive fmt_outcome : Type :=
| Formatted (text : string)
| FormatError (e : exn)
| NotModelled.

Inductive field_value : Type :=
| FieldText (s : string)
| FieldError (e : exn)
| FieldNotModelled.

(** A replacement field without [.], [[], [!] or [:]: an empty name, or
    one that [get_integer] reads as a number, indexes the positional
    arguments, of which this call has none; any other name is a key of
    [variables]. *)
Definition lookup_field (field : string) (kwargs : Dict) : field_value :=
  match field with
  | EmptyString =>
      FieldError (mkExn IndexError
                    "Replacement index 0 out of range for positional args tuple")
  | String _ _ =>
      match get_integer field with
      | TooManyDigits =>
          FieldError (mkExn ValueError "Too many decimal digits in format string")
      | Index n =>
          FieldError (mkExn IndexError
            ("Replacement index " +:+ pretty n
             +:+ " out of range for positional args tuple"))
      | NotInteger =>
          match dict_get kwargs field with
          | None => FieldError (mkExn KeyError (repr field))
          | Some v =>
              match str_of v with
              | Some s => FieldText s
              | None => FieldNotModelled
              end
          end
      end
  end.

(** Where the scanner is: in literal text, or inside a replacement field
    whose name so far is [field]. *)
Inductive fmt_mode : Type :=
| Text
| Field (field : string).

(** The scan of [MarkupIterator_next] and [parse_field]: doubled braces are
    literal braces, a single closing brace is an error, an opening brace
    starts a field that runs up to the next closing brace.  Fields are
    looked up as they are met, so the first failure, of syntax or of
    lookup, is the one raised; [out] is discarded then. *)
Fixpoint format_from (s : string) (mode : fmt_mode) (kwargs : Dict) (out : string)
  : fmt_outcome :=
  match s with
  | EmptyString =>
      match mode with
      | Text => Formatted out
      | Field _ => FormatError (mkExn ValueError "expected '}' before end of string")
      end
  | String c rest =>
      match mode with
      | Text =>
          if Ascii.eqb c lbrace then
            match rest with
            | EmptyString =>
                FormatError (mkExn ValueError "Single '{' encountered in format string")
            | String c' rest' =>
                if Ascii.eqb c' lbrace
                then format_from rest' Text kwargs (out +:+ String lbrace "")
                else format_from rest (Field "") kwargs out
            end
          else if Ascii.eqb c rbrace then
            match rest with
            | EmptyString =>
                FormatError (mkExn ValueError "Single '}' encountered in format string")
            | String c' rest' =>
                if Ascii.eqb c' rbrace
                then format_from rest' Text kwargs (out +:+ String rbrace "")
                else FormatError (mkExn ValueError "Single '}' encountered in format string")
            end
          else format_from rest Text kwargs (out +:+ String c "")
      | Field field =>
          if Ascii.eqb c rbrace then
            match lookup_field field kwargs with
            | FieldText v => format_from rest Text kwargs (out +:+ v)
            | FieldError e => FormatError e
            | FieldNotModelled => NotModelled
            end
          else if Ascii.eqb c lbrace then
            FormatError (mkExn ValueError "unexpected '{' in field name")
          else if contains c ".[!:" then NotModelled
          else format_from rest (Field (field +:+ String c "")) kwargs out
      end
  end.

Definition format (template : string) (kwargs : Dict) : fmt_outcome :=
  format_from template Text kwargs "".

(** The result of [test_template], when the model gives it. *)
Inductive rendering : Type :=
| Rendered (r : result string)
| RenderNotModelled.

(** [test_template]: [KeyError] alone is turned into
    [ValueError(f"Missing variable: {e}")]; other exceptions pass. *)
Definition test_template (db : TemplateStore) (template_id : UUID) (variables : Dict)
  : rendering :=
  match get_template db template_id with
  | None =>
      Rendered (Raise (mkExn ValueError
                         ("Template " +:+ str_UUID template_id +:+ " not found")))
  | Some template =>
      match format (prompt_template template) variables with
      | Formatted rendered => Rendered (Return rendered)
      | FormatError e =>
          match exn_cls e with
          | KeyError => Rendered (Raise (mkExn ValueError ("Missing variable: " +:+ exn_str e)))
          | _ => Rendered (Raise e)
          end
      | NotModelled => RenderNotModelled
      end
  end.

(** *** Templates as text and placeholders *)

(** A template written as literal text and [{name}] placeholders. *)
Inductive segment : Type :=
| Lit (text : string)
| Var (name : string).

Definition segment_text (seg : segment) : string :=
  match seg with
  | Lit text => text
  | Var name => String lbrace (name +:+ String rbrace "")
  end.

Fixpoint template_text (segs : list segment) : string :=
  match segs with
  | [] => ""
  | seg :: rest => segment_text seg +:+ template_text rest
  end.

Fixpoint names (segs : list segment) : list string :=
  match segs with
  | [] => []
  | Lit _ :: rest => names rest
  | Var name :: rest => name :: names rest
  end.

Fixpoint forallb_string (p : ascii -> bool) (s : string) : bool :=
  match s with
  | EmptyString => true
  | String c rest => p c && forallb_string p rest
  end.

(** Literal text has no brace; a placeholder name is not empty, is not a
    number, and has none of the characters [{ } . [ ! :]. *)
Definition plain_char (c : ascii) : bool := negb (contains c "{}.[!:").

Definition well_formed_segment (seg : segment) : bool :=
  match seg with
  | Lit text => forallb_string (fun c => negb (contains c "{}")) text
  | Var name => str_truthy name && forallb_string plain_char name && negb (all_digits name)
  end.

Definition well_formed (segs : list segment) : bool := forallb well_formed_segment segs.

(** A name that [str.format] looks up among the keyword arguments: it is
    not empty and [get_integer] does not read it as a number, that is, it
    has a character that is not a digit, and no run of digits too long for
    an index before the first such character. *)
Definition is_keyword_name (name : string) : bool :=
  match get_integer name with
  | NotInteger => str_truthy name
  | TooManyDigits | Index _ => false
  end.




End Templates.

(** ** Workflow registry: the remaining operations of [automation_service.py] *)

Module AutomationCrud.
Import Automation.

(** [create_workflow]; [workflow_id] is the value [uuid4()] returned and
    [now] the value of [datetime.utcnow().isoformat()] when the workflow
    object is built.  The assignment [_workflows[workflow_id] = workflow]
    replaces whatever was stored under that key. *)
Definition create_workflow (r : registry) (workflow_id : UUID) (now : string)
    (name wtype : string) (config : Dict) (schedule : option string) (created_by : UUID)
  : registry * Dict :=
  let workflow := mkWorkflow workflow_id name wtype config schedule true created_by now in
  (set_workflows r (<[workflow_id := workflow]> (_workflows r)),
   [("workflow_id", VStr (str_UUID workflow_id));
    ("name", VStr name);
    ("workflow_type", VStr wtype);
    ("is_active", VBool true);
    ("created_at", VStr now)]).

(** [delete_workflow]: only the registry entry goes; [_workflow_history]
    is not touched. *)
Definition delete_workflow (r : registry) (workflow_id : UUID) : registry * bool :=
  match _workflows r !! workflow_id with
  | Some _ => (set_workflows r (delete workflow_id (_workflows r)), true)
  | None => (r, false)
  end.

End AutomationCrud.

(** ** Task administration: the remaining operations of [ai_task_service.py] *)

Module TaskAdmin.
Import Tasks.

(** [AITaskUpdate] after [model_dump(exclude_unset=True)]: a field is
    absent, present with [null], or present with a value. *)
Record AITaskUpdate : Type := mkTaskUpdate {
  up_status : option (option TaskStatus);
  up_output_data : option (option Dict);
  up_model_used : option (option string);
  up_tokens_used : option (option Z);
  up_processing_time : option (option Q);
  up_error_message : option (option string);
  up_approved : option (option bool);
  up_approved_by : option (option UUID)
}.

(** The [setattr] loop of [update_task] and the commit; [status] and
    [approved] are the two columns among these that are not nullable. *)
Definition apply_task_update (t : AITask) (upd : AITaskUpdate) : option AITask :=
  status' ← Templates.set_required (status t) (up_status upd);
  approved' ← Templates.set_required (approved t) (up_approved upd);
  Some (mkTask (t_id t) (task_type t) status' (input_data t)
          (Templates.set_nullable (output_data t) (up_output_data upd))
          (prompt t)
          (Templates.set_nullable (model_used t) (up_model_used upd))
          (Templates.set_nullable (tokens_used t) (option_map (option_map VInt) (up_tokens_used upd)))
          (Templates.set_nullable (processing_time t) (up_processing_time upd))
          (Templates.set_nullable (error_message t) (up_error_message upd))
          (requires_approval t) approved'
          (Templates.set_nullable (approved_by t) (up_approved_by upd))
          (approved_at t) (created_by t)).

Definition update_task (db : Session) (task_id : UUID) (task_data : AITaskUpdate)
  : Session * result (option AITask) :=
  match get_task db task_id with
  | None => (db, Return None)
  | Some t =>
      match apply_task_update t task_data with
      | Some t' => (put_task db task_id t', Return (Some t'))
      | None =>
          (db, Raise (mkExn (OtherException "IntegrityError")
                            "null value violates not-null constraint"))
      end
  end.

(** [delete_task].  The relationship [translation_jobs] is declared with
    [cascade="all, delete-orphan"], so the jobs of the task go with it.
    (The table of generated content is not part of this model.) *)
Definition delete_task (db : Session) (task_id : UUID) : Session * bool :=
  match get_task db task_id with
  | None => (db, false)
  | Some _ =>
      (mkSession (delete task_id (tasks db))
                 (filter (fun kv => j_task_id kv.2 ≠ task_id) (translation_jobs db))
                 (next_uuid db),
       true)
  end.

(** [str(member)] of an enumeration declared as [class T(str, enum.Enum)]
    is the qualified member name. *)
Definition str_TaskStatus (s : TaskStatus) : string :=
  match s with
  | PENDING => "TaskStatus.PENDING"
  | PROCESSING => "TaskStatus.PROCESSING"
  | COMPLETED => "TaskStatus.COMPLETED"
  | FAILED => "TaskStatus.FAILED"
  | CANCELLED => "TaskStatus.CANCELLED"
  end.

Definition str_TaskType (k : TaskType) : string :=
  match k with
  | CONTENT_GENERATION => "TaskType.CONTENT_GENERATION"
  | TRANSLATION => "TaskType.TRANSLATION"
  | IMAGE_GENERATION => "TaskType.IMAGE_GENERATION"
  | CONTENT_ENHANCEMENT => "TaskType.CONTENT_ENHANCEMENT"
  | AUTOMATION => "TaskType.AUTOMATION"
  end.

Definition all_statuses : list TaskStatus :=
  [PENDING; PROCESSING; COMPLETED; FAILED; CANCELLED].

Definition all_types : list TaskType :=
  [CONTENT_GENERATION; TRANSLATION; IMAGE_GENERATION; CONTENT_ENHANCEMENT; AUTOMATION].

#[global] Instance TaskType_eq_dec : EqDecision TaskType.
Proof. solve_decision. Defined.

(** The rows the statistics queries range over: all tasks, or those of one
    creator. *)
Definition selected (db : Session) (by_user : option UUID) : list AITask :=
  List.filter (fun t => match by_user with
                        | Some u => N.eqb (created_by t) u
                        | None => true
                        end)
              ((map_to_list (tasks db)).*2).

(** [SELECT key, count(id) ... GROUP BY key]: one row per key that occurs,
    with the number of its tasks.  The rows are listed in the order of the
    enumeration; the dictionary built from them does not depend on it. *)
Definition count_of {K} `{EqDecision K} (key : AITask -> K) (rows : list AITask) (k : K)
  : nat :=
  length (List.filter (fun t => bool_decide (key t = k)) rows).

Definition group_count {K} `{EqDecision K} (keys : list K) (key : AITask -> K)
    (rows : list AITask) : list (K * nat) :=
  List.filter (fun kn => negb (Nat.eqb kn.2 0))
              ((fun k => (k, count_of key rows k)) <$> keys).

Record statistics : Type := mkStatistics {
  total_tasks : nat;
  by_status : list (string * nat);
  by_type : list (string * nat)
}.

Definition get_task_statistics (db : Session) (by_user : option UUID) : statistics :=
  let rows := selected db by_user in
  {| total_tasks := length rows;
     by_status := prod_map str_TaskStatus id <$> group_count all_statuses status rows;
     by_type := prod_map str_TaskType id <$> group_count all_types task_type rows |}.

End TaskAdmin.

(** ** Translating stored content: [TranslationService.auto_translate_content] *)

Module AutoTranslate.
Import Gateway Tasks Translation.

(** The columns of a [generated_content] row that the function reads. *)
Record GeneratedContent : Type := mkContent {
  gc_id : UUID;
  gc_body : string;
  gc_language : string
}.

(** [d[key] = v]: an existing key keeps its place and gets the new value;
    a new key goes to the end. *)
Fixpoint dict_set (d : Dict) (key : string) (v : pyval) : Dict :=
  match d with
  | [] => [(key, v)]
  | (k, v') :: rest =>
      if String.eqb k key then (k, v) :: rest else (k, v') :: dict_set rest key v
  end.

(** The loop over [target_languages]. *)
Fixpoint translate_each {W} (P : Provider W) (w : W) (db : Session)
    (content : GeneratedContent) (target_languages : list string) (by_user : UUID)
    (translations : Dict) : W * Session * Dict :=
  match target_languages with
  | [] => (w, db, translations)
  | target_lang :: rest =>
      if String.eqb target_lang (gc_language content)
      then translate_each P w db content rest by_user translations
      else
        match translate P w db (gc_body content) (gc_language content) target_lang by_user with
        | (w', db', Return translation) =>
            translate_each P w' db' content rest by_user
              (dict_set translations target_lang (VDict translation))
        | (w', db', Raise e) =>
            translate_each P w' db' content rest by_user
              (dict_set translations target_lang (VDict [("error", VStr (exn_str e))]))
        end
  end.

(** [auto_translate_content]; [contents] is the table of generated
    content, which the function only reads. *)
Definition auto_translate_content {W} (P : Provider W) (w : W) (db : Session)
    (contents : gmap UUID GeneratedContent) (content_id : UUID)
    (target_languages : list string) (by_user : UUID)
  : W * Session * result Dict :=
  match contents !! content_id with
  | None =>
      (w, db, Raise (mkExn ValueError ("Content " +:+ str_UUID content_id +:+ " not found")))
  | Some content =>
      let '(w', db', translations) :=
        translate_each P w db content target_languages by_user [] in
      (w', db',
       Return [("content_id", VStr (str_UUID content_id));
               ("source_language", VStr (gc_language content));
               ("translations", VDict translations)])
  end.

(** The entry stored for a target language that [translate] refuses. *)
Definition unsupported_entry (lang : string) : pyval :=
  VDict [("error", VStr ("Unsupported target language: " +:+ lang))].

End AutoTranslate.

(** ** Enhancement: [AbacusAIClient.enhance_text] and
    [app/services/content_enhancement_service.py] *)

Module Enhancement.
Import Gateway Tasks Translation.

(** [enhancement_prompts.get(enhancement_type, enhancement_prompts['improve'])] *)
Definition enhancement_prompt (enhancement_type : string)
    (additional_context : option string) : string :=
  let tone :=
    match additional_context with
    | Some c => if str_truthy c then c else "professional and friendly"
    | None => "professional and friendly"
    end in
  if String.eqb enhancement_type "grammar" then
    "Fix all grammar, spelling, and punctuation errors in the following text. Keep the same tone and style:"
  else if String.eqb enhancement_type "tone" then
    "Adjust the tone of the following text to be " +:+ tone +:+ ":"
  else if String.eqb enhancement_type "seo" then
    "Optimize the following text for SEO. Add relevant keywords naturally and improve readability:"
  else if String.eqb enhancement_type "summarize" then
    "Provide a concise summary of the following text:"
  else
    "Improve the following text by making it clearer, more engaging, and more impactful:".

Definition enhance_request (text enhancement_type : string)
    (additional_context : option string) : chat_request :=
  chat_request_of
    (enhancement_prompt enhancement_type additional_context
     +:+ newline +:+ newline +:+ text +:+ newline +:+ newline +:+ "Enhanced version:")
    1000 (5 # 10) (Some "You are an expert editor and content strategist.").

(** The dictionary [enhance_text] returns. *)
Definition enhancement_dict (enhanced : string) (tokens : pyval) : Dict :=
  [("enhanced_text", VStr enhanced);
   ("tokens_used", tokens);
   ("changes_made", VList [VStr "Enhanced"])].

Definition enhance_text {W} (P : Provider W) (w : W) (text enhancement_type : string)
    (additional_context : option string) : W * result Dict :=
  match generate_text P w
          (enhancement_prompt enhancement_type additional_context
           +:+ newline +:+ newline +:+ text +:+ newline +:+ newline +:+ "Enhanced version:")
          1000 (5 # 10) (Some "You are an expert editor and content strategist.") with
  | (w', Return res) =>
      match dict_get res "text" with
      | Some (VStr s) =>
          match dict_get res "tokens_used" with
          | Some tokens => (w', Return (enhancement_dict (strip s) tokens))
          | None => (w', Raise (mkExn KeyError "'tokens_used'"))
          end
      | Some v => (w', Raise (AttributeError v "strip"))
      | None => (w', Raise (mkExn KeyError "'text'"))
      end
  | (w', Raise e) => (w', Raise e)
  end.

Definition ENHANCEMENT_TYPES : list string :=
  ["grammar"; "tone"; "seo"; "summarize"; "improve"].

(** [context] as it is stored in [input_data]: a string or [None]. *)
Definition opt_str (o : option string) : pyval :=
  match o with Some s => VStr s | None => VNone end.

(** [ContentEnhancementService.enhance_content] from the call of
    [create_task] on, for a schema object [task_data]. *)
Definition enhance_content_with {W} (P : Provider W) (w : W) (db : Session)
    (text enhancement_type : string) (context : option string) (by_user : UUID)
    (task_data : AITaskCreate) : W * Session * result Dict :=
    let '(db1, task) := create_task db task_data by_user in
    let task := set_status task PROCESSING in
    let db2 := put_task db1 (t_id task) task in
    let start_time := time P w in
    match enhance_text P w text enhancement_type context with
    | (w', Return res) =>
        let elapsed := (time P w' - start_time)%Q in
        let task :=
          mkTask (t_id task) (task_type task) COMPLETED (input_data task) (Some res)
                 (prompt task) (model_used task) (dict_get res "tokens_used") (Some elapsed)
                 (error_message task) (requires_approval task) (approved task)
                 (approved_by task) (approved_at task) (created_by task) in
        match dict_get res "enhanced_text" with
        | Some enhanced =>
            (w', put_task db2 (t_id task) task,
             Return [("task_id", VStr (str_UUID (t_id task)));
                     ("original_text", VStr text);
                     ("enhanced_text", enhanced);
                     ("enhancement_type", VStr enhancement_type);
                     ("changes_made", Automation.get_default res "changes_made" (VList []));
                     ("status", VStr "completed")])
        | None =>
            let e := mkExn KeyError "'enhanced_text'" in
            (w', put_task db2 (t_id task) (fail task e), Raise e)
        end
    | (w', Raise e) => (w', put_task db2 (t_id task) (fail task e), Raise e)
    end.

(** [ContentEnhancementService.enhance_content].  The schema object is
    built without [created_by], before the [try]. *)
Definition enhance_content {W} (P : Provider W) (w : W) (db : Session)
    (text enhancement_type : string) (context : option string) (by_user : UUID)
  : W * Session * result Dict :=
  if negb (bool_decide (enhancement_type ∈ ENHANCEMENT_TYPES))
  then (w, db, Raise (mkExn ValueError
                        ("Unsupported enhancement type: " +:+ enhancement_type)))
  else
    match AITaskCreate_init CONTENT_ENHANCEMENT
            [("text", VStr text); ("enhancement_type", VStr enhancement_type);
             ("context", opt_str context)]
            (Some "") (Some false) None with
    | Return task_data =>
        enhance_content_with P w db text enhancement_type context by_user task_data
    | Raise e => (w, db, Raise e)
    end.

(** The four shorthands. *)
Definition fix_grammar {W} (P : Provider W) (w : W) (db : Session)
    (text : string) (by_user : UUID) :=
  enhance_content P w db text "grammar" None by_user.

Definition adjust_tone {W} (P : Provider W) (w : W) (db : Session)
    (text target_tone : string) (by_user : UUID) :=
  enhance_content P w db text "tone" (Some target_tone) by_user.

Definition optimize_seo {W} (P : Provider W) (w : W) (db : Session)
    (text : string) (keywords : option string) (by_user : UUID) :=
  enhance_content P w db text "seo" keywords by_user.

Definition summarize {W} (P : Provider W) (w : W) (db : Session)
    (text : string) (max_length : option Z) (by_user : UUID) :=
  let context :=
    match max_length with
    | Some n => if Z.eqb n 0 then None else Some ("Maximum " +:+ pretty n +:+ " words")
    | None => None
    end in
  enhance_content P w db text "summarize" context by_user.

End Enhancement.

(** ** Template administration: the remaining operations of
    [content_template_service.py] *)

Module TemplateAdmin.
Import Templates.

(** [delete_template] *)
Definition delete_template (db : TemplateStore) (template_id : UUID) : TemplateStore * bool :=
  match get_template db template_id with
  | None => (db, false)
  | Some _ => (mkStore (delete template_id (templates db)) (next_template_id db), true)
  end.

(** [ContentTemplate.increment_usage]: [self.usage_count += 1] *)
Definition increment (t : ContentTemplate) : ContentTemplate :=
  mkTemplate (ct_id t) (name t) (template_type t) (description t) (prompt_template t)
             (variables t) (language t) (platform t) (is_active t)
             (usage_count t + 1) (ct_created_by t).

(** [increment_usage]: nothing happens for an unknown template. *)
Definition increment_usage (db : TemplateStore) (template_id : UUID) : TemplateStore :=
  match get_template db template_id with
  | Some t => mkStore (<[template_id := increment t]> (templates db)) (next_template_id db)
  | None => db
  end.

End TemplateAdmin.

(** ** Images: [AbacusAIClient.generate_image] and
    [app/services/image_generation_service.py] *)

Module Images.
Import Gateway Tasks Translation.

Definition placeholder_url : string :=
  "https://upload.wikimedia.org/wikipedia/commons/thumb/6/65/No-Image-Placeholder.svg/975px-No-Image-Placeholder.svg.png".

(** [AbacusAIClient.generate_image]: no provider is involved. *)
Definition client_generate_image (prompt size : string) : Dict :=
  [("image_url", VStr placeholder_url); ("size", VStr size); ("format", VStr "jpg")].

Definition SUPPORTED_SIZES : list string :=
  ["256x256"; "512x512"; "1024x1024"; "1024x1792"; "1792x1024"].

(** [ImageGenerationService.generate_image] from the call of [create_task]
    on, for a schema object [task_data]; [elapsed] is the difference of the
    two readings of [time.time()] around the client call. *)
Definition generate_image_with (db : Session) (prompt size : string)
    (by_user : UUID) (elapsed : Q) (task_data : AITaskCreate) : Session * result Dict :=
    let '(db1, task) := create_task db task_data by_user in
    let task := set_status task PROCESSING in
    let db2 := put_task db1 (t_id task) task in
    let res := client_generate_image prompt size in
    let task :=
      mkTask (t_id task) (task_type task) COMPLETED (input_data task) (Some res)
             (Tasks.prompt task) (model_used task) (tokens_used task) (Some elapsed)
             (error_message task) (requires_approval task) (approved task)
             (approved_by task) (approved_at task) (created_by task) in
    (put_task db2 (t_id task) task,
     Return [("task_id", VStr (str_UUID (t_id task)));
             ("image_url", VStr placeholder_url);
             ("size", VStr size);
             ("status", VStr "completed")]).

(** [ImageGenerationService.generate_image].  The schema object is built
    without [created_by], before the [try]. *)
Definition generate_image (db : Session) (prompt size : string) (style : option string)
    (by_user : UUID) (elapsed : Q) : Session * result Dict :=
  if negb (bool_decide (size ∈ SUPPORTED_SIZES))
  then (db, Raise (mkExn ValueError ("Unsupported size: " +:+ size)))
  else
    match AITaskCreate_init IMAGE_GENERATION
            [("prompt", VStr prompt); ("size", VStr size);
             ("style", Enhancement.opt_str style)]
            (Some prompt) (Some true) None with
    | Return task_data => generate_image_with db prompt size by_user elapsed task_data
    | Raise e => (db, Raise e)
    end.

End Images.

(** ** The databases the lifecycle operations lead to *)

Module Lifecycle.
Import Gateway Tasks Translation Enhancement Images.

Definition empty_db : Session := mkSession ∅ ∅ 0%N.

(** A database is reachable when it results from the empty one by calls of
    [create_task], of a domain operation ([translate], [enhance_content],
    [generate_image]: the functions that hold the assignments for begin
    processing, complete and fail), of [approve_task] and of [reject_task],
    in any order and with any arguments. *)
Inductive reachable {W} (P : Provider W) : Session -> Prop :=
| reach_empty : reachable P empty_db
| reach_create db task_data by_user :
    reachable P db -> reachable P (create_task db task_data by_user).1
| reach_translate db w text source_lang target_lang by_user :
    reachable P db ->
    reachable P (translate P w db text source_lang target_lang by_user).1.2
| reach_enhance db w text enhancement_type context by_user :
    reachable P db ->
    reachable P (enhance_content P w db text enhancement_type context by_user).1.2
| reach_image db prompt size style by_user elapsed :
    reachable P db ->
    reachable P (generate_image db prompt size style by_user elapsed).1
| reach_approve db task_id by_user now :
    reachable P db -> reachable P (approve_task db task_id by_user now).1
| reach_reject db task_id by_user reason :
    reachable P db -> reachable P (reject_task db task_id by_user reason).1.

Definition terminal (s : TaskStatus) : bool :=
  match s with
  | COMPLETED | FAILED | CANCELLED => true
  | PENDING | PROCESSING => false
  end.

End Lifecycle.

(** ** Concrete collaborators used in the examples *)

Module Scenarios.
Import Automation Gateway Tasks Translation Lifecycle.

Definition reply (text : string) : Dict :=
  [("content", VStr text);
   ("usage", VDict [("total_tokens", VInt 12)]);
   ("model", VStr "gpt-4")].

(** The world is the clock.  This provider answers every request, an hour
    after it was asked. *)
Definition slow_provider : Provider Q :=
  mkProvider (fun w => w) (fun w _ => ((w + 3600)%Q, Return (reply " Hola "))).

(** A provider that refuses every request after one second. *)
Definition down_provider : Provider Q :=
  mkProvider (fun w => w)
    (fun w _ => ((w + 1)%Q, Raise (mkExn ApiException "service unavailable"))).

(** A request to create a translation task, as a caller that passes
    [created_by] builds it. *)
Definition hello_request : AITaskCreate :=
  mkCreate TRANSLATION
    [("text", VStr "Hello"); ("source_lang", VStr "en"); ("target_lang", VStr "es")]
    (Some "") false 7%N.

(** A database with one completed task: the task is created and then set
    to [COMPLETED] with its output through [update_task]. *)
Definition completed_db : Session :=
  (TaskAdmin.update_task (create_task empty_db hello_request 7%N).1 0%N
     (TaskAdmin.mkTaskUpdate (Some (Some COMPLETED))
        (Some (Some [("translated_text", VStr "Hola")]))
        (Some (Some "gpt-4")) (Some (Some 12%Z)) None None None None)).1.

(** Domain services for the orchestrator over a world that is a clock
    reading: generation succeeds, translation of content fails. *)
Definition demo_services : Services string :=
  mkServices (fun w => w)
    (fun w _ _ _ => (w, Raise (mkExn ValueError "Content not found")))
    (fun w _ _ _ _ _ _ => (w, Return (VDict [("status", VStr "completed")]))).

Definition demo_workflow : AutomationWorkflow :=
  mkWorkflow 5%N "Daily post" "scheduled_post" [("topic", VStr "water")]
             None true 7%N "2025-12-24T19:53:00".

Definition demo_registry : registry :=
  mkRegistry {[ 5%N := demo_workflow ]} [].

(** One iteration order of a set: each element where it occurs last. *)
Definition last_seen : Templates.SetOrder :=
  Templates.mkSetOrder remove_dups
    (fun l => NoDup_remove_dups l)
    (fun l x => elem_of_remove_dups l x).

Definition greeting : Templates.ContentTemplateCreate :=
  Templates.mkTemplateCreate "Greeting" "donor_letter" None
    "Hello {name}, thank you for {gift}. Yours, {name}" ["stale"] "en" None false.

Definition greeting_db : Templates.TemplateStore :=
  (Templates.create_template last_seen (Templates.mkStore ∅ 0%N) greeting 7%N).1.

Definition hello_db : Templates.TemplateStore :=
  (Templates.create_template last_seen (Templates.mkStore ∅ 0%N)
     (Templates.mkTemplateCreate "Hello" "social_post" None "Hello {name}" [] "en" None true)
     7%N).1.

End Scenarios.

(** ** Sentences of the specification, as they are stated *)

Module Stated.
Import Gateway Tasks Translation Lifecycle.


(** "[reject] forces [cancelled] from a non-terminal state and does not
    change the status of a task already in a terminal state." *)
Definition reject_keeps_terminal (db : Session) (task_id rejected_by : UUID)
    (reason : option string) : Prop :=
  ∀ t t',
    get_task db task_id = Some t ->
    (reject_task db task_id rejected_by reason).2 = Some t' ->
    (terminal (status t) = false -> status t' = CANCELLED)
    ∧ (terminal (status t) = true -> status t' = status t).


End Stated.

(** * Properties *)

(** ** Workflow automation *)

Section AutomationFacts.
Import Automation.

Context {W : Type} (S : Services W).

Lemma slice_from_0 {A} (xs : list A) : slice_from (- 0) xs = xs.
Proof.
  unfold slice_from. change (- 0)%Z with 0%Z. rewrite Z.ltb_irrefl.
  destruct (Z.of_nat (length xs) <? 0)%Z eqn:E; [apply Z.ltb_lt in E; lia | reflexivity].
Qed.

(** Positive limits do select the last [limit] records. *)
Lemma slice_from_last {A} (n : nat) (xs : list A) :
  (0 < n)%nat -> slice_from (- Z.of_nat n) xs = drop (length xs - n) xs.
Proof.
  intros Hn. unfold slice_from.
  destruct (- Z.of_nat n <? 0)%Z eqn:E1; [| apply Z.ltb_ge in E1; lia].
  destruct (- Z.of_nat n + Z.of_nat (length xs) <? 0)%Z eqn:E2.
  - apply Z.ltb_lt in E2. f_equal. lia.
  - apply Z.ltb_ge in E2. f_equal. lia.
Qed.

(** With an identifier in hand, [run_workflow] appends exactly one record,
    whatever the handler does: a completed one carrying the result when the
    handler returns, a failed one carrying [str(e)] when it raises [e], and
    in that case the same [e] leaves the function. *)
Lemma run_workflow_records u w r workflow_id workflow trigger_data created_by :
  ∃ w' rec,
    run_workflow S (Return u) w r workflow_id workflow trigger_data created_by
      = (w', append_history r rec,
         match snd (dispatch S w workflow trigger_data created_by) with
         | Return _ => Return rec
         | Raise e => Raise e
         end)
    ∧ w' = fst (dispatch S w workflow trigger_data created_by)
    ∧ execution_id rec = str_UUID u
    ∧ rec_workflow_id rec = str_UUID workflow_id
    ∧ started_at rec = utcnow S w
    ∧ completed_at rec = utcnow S w'
    ∧ match snd (dispatch S w workflow trigger_data created_by) with
      | Return res =>
          rec_status rec = "completed" ∧ rec_result rec = Some res ∧ rec_error rec = None
      | Raise e =>
          rec_status rec = "failed" ∧ rec_result rec = None
          ∧ rec_error rec = Some (exn_str e)
      end.
Proof.
  unfold run_workflow.
  destruct (dispatch S w workflow trigger_data created_by) as [w' [res|e]]; simpl;
    eexists _, _; (split; [reflexivity|]); simpl; repeat split.
Qed.

(** [UUID()] without arguments does not build an identifier. *)
Lemma UUID_no_arguments :
  UUID_init None None None None None
  = Raise (mkExn TypeError
             "one of the hex, bytes, bytes_le, fields, or int arguments must be given").
Proof. reflexivity. Qed.

(** C1 (code as written).  For a known, active workflow the expression
    [str(UUID())] raises [TypeError] before the [try] is entered: the call
    ends with that exception, the handler is never dispatched, and the
    history is left exactly as it was, so no execution record is appended. *)
Theorem trigger_workflow_never_records
    (w : W) (r : registry) (workflow_id : UUID) (workflow : AutomationWorkflow)
    (trigger_data : option Dict) (created_by : UUID) :
  _workflows r !! workflow_id = Some workflow ->
  wf_is_active workflow = true ->
  trigger_workflow S w r workflow_id trigger_data created_by
  = (w, r, Raise (mkExn TypeError
                    "one of the hex, bytes, bytes_le, fields, or int arguments must be given")).
Proof.
  intros Hw Ha. unfold trigger_workflow. rewrite Hw, Ha.
  cbn [negb]. unfold run_workflow. by rewrite UUID_no_arguments.
Qed.

(** An unknown or inactive workflow is refused with [ValueError] and
    nothing is recorded. *)
Lemma trigger_workflow_guards w r workflow_id trigger_data created_by :
  (_workflows r !! workflow_id = None
   ∨ ∃ wf, _workflows r !! workflow_id = Some wf ∧ wf_is_active wf = false) ->
  ∃ msg, trigger_workflow S w r workflow_id trigger_data created_by
         = (w, r, Raise (mkExn ValueError msg)).
Proof.
  unfold trigger_workflow. intros [-> | (wf & -> & ->)]; simpl; eauto.
Qed.

(** C9.  With [limit = 0] the slice [history[-0:]] is the whole filtered
    list: every record of the workflow, in the order of recording. *)
Theorem get_workflow_history_limit_0 (r : registry) (workflow_id : UUID) :
  get_workflow_history r workflow_id 0
  = filter (fun rec => rec_workflow_id rec = str_UUID workflow_id) (_workflow_history r).
Proof. unfold get_workflow_history, history_of. apply slice_from_0. Qed.

(** For a positive limit the result is the last [limit] records. *)
Lemma get_workflow_history_positive (r : registry) (workflow_id : UUID) (n : nat) :
  (0 < n)%nat ->
  get_workflow_history r workflow_id (Z.of_nat n)
  = drop (length (history_of r workflow_id) - n) (history_of r workflow_id).
Proof. intros. unfold get_workflow_history. by apply slice_from_last. Qed.

(** C10.  [update_workflow] on an existing workflow: a [name] or [config]
    that is [None] or falsy (the empty string, the empty dictionary) leaves
    the stored value alone and a truthy one replaces it; [schedule] and
    [is_active] are replaced whenever they are not [None]; identifier, type,
    creator and creation time, every other workflow and the history are
    untouched; the returned dictionary describes the updated workflow. *)
Theorem update_workflow_frame
    (r : registry) (workflow_id : UUID) (w : AutomationWorkflow)
    (name : option string) (config : option Dict)
    (schedule : option string) (is_active : option bool) :
  _workflows r !! workflow_id = Some w ->
  ∃ w',
    _workflows (update_workflow r workflow_id name config schedule is_active).1
      !! workflow_id = Some w'
    ∧ (update_workflow r workflow_id name config schedule is_active).2 = Some (info_of w')
    ∧ (name = None ∨ name = Some "" -> wf_name w' = wf_name w)
    ∧ (∀ n, name = Some n -> n ≠ "" -> wf_name w' = n)
    ∧ (config = None ∨ config = Some [] -> wf_config w' = wf_config w)
    ∧ (∀ c, config = Some c -> c ≠ [] -> wf_config w' = c)
    ∧ (schedule = None -> wf_schedule w' = wf_schedule w)
    ∧ (∀ s, schedule = Some s -> wf_schedule w' = Some s)
    ∧ (is_active = None -> wf_is_active w' = wf_is_active w)
    ∧ (∀ b, is_active = Some b -> wf_is_active w' = b)
    ∧ wf_id w' = wf_id w
    ∧ workflow_type w' = workflow_type w
    ∧ wf_created_by w' = wf_created_by w
    ∧ wf_created_at w' = wf_created_at w
    ∧ (∀ k, k ≠ workflow_id ->
         _workflows (update_workflow r workflow_id name config schedule is_active).1 !! k
         = _workflows r !! k)
    ∧ _workflow_history (update_workflow r workflow_id name config schedule is_active).1
      = _workflow_history r.
Proof.
  intros Hw. unfold update_workflow. rewrite Hw. simpl.
  exists (apply_update w name config schedule is_active).
  split; [apply lookup_insert_eq|].
  split; [unfold get_workflow; simpl; by rewrite lookup_insert_eq|].
  unfold apply_update.
  repeat split.
  - intros [-> | ->]; destruct config as [[|]|], schedule, is_active; reflexivity.
  - intros n -> Hn. destruct n; [done|].
    destruct config as [[|]|], schedule, is_active; reflexivity.
  - intros [-> | ->]; destruct name as [[|]|], schedule, is_active; reflexivity.
  - intros c -> Hc. destruct c; [done|].
    destruct name as [[|]|], schedule, is_active; reflexivity.
  - intros ->. destruct name as [[|]|], config as [[|]|], is_active; reflexivity.
  - intros s ->. destruct name as [[|]|], config as [[|]|], is_active; reflexivity.
  - intros ->. destruct name as [[|]|], config as [[|]|], schedule; reflexivity.
  - intros b ->. destruct name as [[|]|], config as [[|]|], schedule; reflexivity.
  - destruct name as [[|]|], config as [[|]|], schedule, is_active; reflexivity.
  - destruct name as [[|]|], config as [[|]|], schedule, is_active; reflexivity.
  - destruct name as [[|]|], config as [[|]|], schedule, is_active; reflexivity.
  - destruct name as [[|]|], config as [[|]|], schedule, is_active; reflexivity.
  - intros k Hk. by apply lookup_insert_ne.
Qed.

End AutomationFacts.

(** ** The provider gateway *)

Section GatewayFacts.
Import Gateway Scenarios Stated.

Context {W : Type} (P : Provider W).

Lemma generate_text_raise w prompt max_tokens temperature system_message w' e :
  chat_llm P w (chat_request_of prompt max_tokens temperature system_message) = (w', Raise e) ->
  generate_text P w prompt max_tokens temperature system_message = (w', Raise e).
Proof. intros H. unfold generate_text. by rewrite H. Qed.

Lemma translate_text_raise w text source_lang target_lang w' e :
  chat_llm P w (translate_request text source_lang target_lang) = (w', Raise e) ->
  translate_text P w text source_lang target_lang = (w', Raise e).
Proof.
  intros H. unfold translate_text, translate_request in *.
  by rewrite (generate_text_raise _ _ _ _ _ _ _ H).
Qed.


End GatewayFacts.


(** ** Task lifecycle *)

Section TaskFacts.
Import Gateway Tasks Translation Lifecycle Stated Scenarios.

(** C2 (as the code has it).  [reject_task] has no guard on the current
    status: for every stored task, in a terminal state or not, it succeeds,
    stores and returns the task with [status = CANCELLED] and the rejection
    text as [error_message], and keeps [output_data].  The status is left
    as it was only when the task was already cancelled. *)
Theorem reject_task_forces_cancelled
    (db : Session) (task_id rejected_by : UUID) (reason : option string) (t : AITask) :
  get_task db task_id = Some t ->
  ∃ t',
    (reject_task db task_id rejected_by reason).2 = Some t'
    ∧ get_task (reject_task db task_id rejected_by reason).1 task_id = Some t'
    ∧ status t' = CANCELLED
    ∧ error_message t' = Some ("Rejected by user: " +:+ reason_or_default reason)
    ∧ output_data t' = output_data t
    ∧ (status t' = status t ↔ status t = CANCELLED).
Proof.
  intros Ht. unfold reject_task. rewrite Ht. simpl.
  eexists. split; [reflexivity|].
  split; [unfold get_task; simpl; apply lookup_insert_eq|].
  simpl. repeat split; congruence.
Qed.

(** C2 (as stated) fails: the task of [completed_db] is completed, and
    rejecting it moves it to cancelled. *)
Lemma reject_leaves_completed :
  ¬ reject_keeps_terminal completed_db 0%N 9%N (Some "off-topic").
Proof.
  intros H.
  assert (Hrun : ∃ t t',
             get_task completed_db 0%N = Some t
             ∧ (reject_task completed_db 0%N 9%N (Some "off-topic")).2 = Some t'
             ∧ status t = COMPLETED ∧ status t' = CANCELLED)
    by (vm_compute; do 2 eexists; repeat split).
  destruct Hrun as (t & t' & Ht & Hret & Hs & Hs').
  destruct (H t t' Ht Hret) as [_ Hkeep].
  rewrite Hs in Hkeep. specialize (Hkeep eq_refl). congruence.
Qed.

Context {W : Type} (P : Provider W).

(** [translate] ends with an exception on every input and leaves the
    world and the database as they were: a language is refused, or the
    schema object is. *)
Lemma translate_raises w db text source_lang target_lang by_user :
  ∃ e, translate P w db text source_lang target_lang by_user = (w, db, Raise e).
Proof.
  unfold translate.
  destruct (supported source_lang); simpl; [|by eexists].
  destruct (supported target_lang); simpl; by eexists.
Qed.

(** So do the other two domain operations. *)
Lemma enhance_content_raises w db text enhancement_type context by_user :
  ∃ e, Enhancement.enhance_content P w db text enhancement_type context by_user
       = (w, db, Raise e).
Proof.
  unfold Enhancement.enhance_content.
  destruct (bool_decide (enhancement_type ∈ Enhancement.ENHANCEMENT_TYPES)); simpl;
    by eexists.
Qed.

Lemma generate_image_raises db image_prompt size style by_user elapsed :
  ∃ e, Images.generate_image db image_prompt size style by_user elapsed = (db, Raise e).
Proof.
  unfold Images.generate_image.
  destruct (bool_decide (size ∈ Images.SUPPORTED_SIZES)); simpl; by eexists.
Qed.



End TaskFacts.

(** ** Translation *)

Section TranslationFacts.
Import Gateway Tasks Translation Lifecycle Stated Scenarios.

Context {W : Type} (P : Provider W).

(** C4 (as the code behaves).  For two supported languages [translate]
    never gets to the provider.  The schema object it builds for
    [create_task] lacks the required [created_by], so the call ends with
    pydantic's [ValidationError] whatever the provider would have done; the
    world is the one before the call, and so is the database: no task is
    stored, failed or otherwise, and no job. *)
Theorem translate_stops_before_provider
    (w : W) (db : Session) (text source_lang target_lang : string) (by_user : UUID) :
  supported source_lang = true ->
  supported target_lang = true ->
  ∃ msg,
    translate P w db text source_lang target_lang by_user
    = (w, db, Raise (mkExn ValidationError msg)).
Proof.
  intros Hs Ht. unfold translate. rewrite Hs, Ht. simpl. by eexists.
Qed.

(** Were the schema object built, the rest of [translate] would handle a
    failure of the provider as follows: the exception is passed on, the
    task is stored [FAILED] with [str(e)] as [error_message] and without
    [output_data], and the [TranslationJob], which is added before the
    provider is called, is kept and marked [FAILED] with the same message. *)
Lemma translate_with_provider_failure
    (w w' : W) (db : Session) (text source_lang target_lang : string)
    (by_user : UUID) (task_data : AITaskCreate) (e : exn) :
  chat_llm P w (translate_request text source_lang target_lang) = (w', Raise e) ->
  let out := translate_with P w db text source_lang target_lang by_user task_data in
  let task_key := next_uuid db in
  let job_key := N.succ (next_uuid db) in
  out.1.1 = w'
  ∧ out.2 = Raise e
  ∧ (∃ t, tasks out.1.2 !! task_key = Some t
          ∧ status t = FAILED
          ∧ error_message t = Some (exn_str e)
          ∧ output_data t = None)
  ∧ (∃ j, translation_jobs out.1.2 !! job_key = Some j
          ∧ j_task_id j = task_key
          ∧ source_text j = text
          ∧ j_status j = TS_FAILED
          ∧ j_error_message j = Some (exn_str e)
          ∧ translated_text j = None).
Proof.
  intros Hcall. cbv zeta. unfold translate_with. simpl.
  rewrite (translate_text_raise P _ _ _ _ _ _ Hcall). simpl.
  split; [reflexivity|]. split; [reflexivity|].
  split; [eexists; split; [apply lookup_insert_eq | by simpl]|].
  eexists; split; [apply lookup_insert_eq | by simpl].
Qed.



End TranslationFacts.

(** A batch of three texts between two supported languages: three entries
    in input order, each the error entry of its own text. *)
Example batch_of_three :
  ∃ msg,
    Translation.batch_translate Scenarios.slow_provider 0%Q Lifecycle.empty_db
      ["Hello"; "Welcome"; "Thank you"] "en" "es" 7%N
    = (0%Q, Lifecycle.empty_db,
       Return [[("error", VStr msg); ("text", VStr "Hello")];
               [("error", VStr msg); ("text", VStr "Welcome")];
               [("error", VStr msg); ("text", VStr "Thank you")]]).
Proof. eexists. vm_compute. reflexivity. Qed.

(** ** Content templates *)

Section TemplateFacts.
Import Templates Scenarios.

Lemma str_app_cons c s t : String c s +:+ t = String c (s +:+ t).
Proof. reflexivity. Qed.

Lemma str_app_nil_r s : s +:+ "" = s.
Proof. induction s as [|c s IH]; [done|]. by rewrite str_app_cons, IH. Qed.

Lemma str_app_assoc s t u : (s +:+ t) +:+ u = s +:+ (t +:+ u).
Proof. induction s as [|c s IH]; [done|]. by rewrite !str_app_cons, IH. Qed.

Lemma contains_cons c c' s : contains c (String c' s) = Ascii.eqb c c' || contains c s.
Proof. reflexivity. Qed.

(** *** The variables of a prompt *)

Lemma findall_literal text rest :
  forallb_string (fun c => negb (contains c "{}")) text = true ->
  findall_from (text +:+ rest) None = findall_from rest None.
Proof.
  induction text as [|c text IH]; [done|].
  cbn [forallb_string]. intros [Hc Ht]%andb_true_iff.
  rewrite str_app_cons. cbn [findall_from].
  destruct (Ascii.eqb c lbrace) eqn:E.
  - apply Ascii.eqb_eq in E as ->. discriminate Hc.
  - by apply IH.
Qed.

Lemma findall_group nm : ∀ g rest,
  forallb_string plain_char nm = true ->
  str_truthy (g +:+ nm) = true ->
  findall_from (nm +:+ String rbrace rest) (Some g) = (g +:+ nm) :: findall_from rest None.
Proof.
  induction nm as [|c nm IH]; intros g rest Hp Hne.
  - rewrite str_app_nil_r in *. change ("" +:+ String rbrace rest) with (String rbrace rest).
    cbn [findall_from]. rewrite Ascii.eqb_refl. by destruct g.
  - cbn [forallb_string] in Hp. apply andb_true_iff in Hp as [Hc Hp].
    rewrite str_app_cons. cbn [findall_from].
    destruct (Ascii.eqb c rbrace) eqn:E.
    + apply Ascii.eqb_eq in E as ->. discriminate Hc.
    + rewrite (IH (g +:+ String c "") rest Hp).
      * by rewrite str_app_assoc.
      * rewrite str_app_assoc. by destruct g.
Qed.

(** For a template written as text and placeholders, the matches of the
    pattern are the placeholder names, in order. *)
Lemma findall_template_text segs :
  well_formed segs = true -> findall (template_text segs) = names segs.
Proof.
  unfold findall, well_formed.
  induction segs as [|[text|nm] segs IH]; [done|..];
    cbn [forallb template_text segment_text names well_formed_segment];
    intros [Hseg Hwf]%andb_true_iff.
  - rewrite findall_literal by done. by apply IH.
  - apply andb_true_iff in Hseg as [[Hne Hp]%andb_true_iff _].
    rewrite !str_app_cons, str_app_assoc, str_app_cons.
    change ("" +:+ template_text segs) with (template_text segs).
    cbn [findall_from]. rewrite Ascii.eqb_refl.
    rewrite findall_group by done. f_equal. by apply IH.
Qed.

Context (O : SetOrder).

Lemma extract_variables_distinct text :
  extract_variables O text ≡ₚ remove_dups (findall text).
Proof.
  apply NoDup_Permutation.
  - apply list_of_set_NoDup.
  - apply NoDup_remove_dups.
  - intros x. unfold extract_variables.
    by rewrite list_of_set_elem, elem_of_remove_dups.
Qed.

(** C5.  The stored [variables] are the distinct matches of the placeholder
    pattern in the stored [prompt_template], each once and in some order:
    after [create_template], whatever [variables] the request carried; and
    after every [update_template] that returns a template and whose data
    has [prompt_template], whatever [variables] it has besides.  Such an
    update goes through whenever it sets no required column to [null].  For
    a prompt written as text and [{name}] placeholders these matches are
    the placeholder names. *)
Theorem variables_follow_prompt :
  (∀ db template_data by_user,
     let out := create_template O db template_data by_user in
     get_template out.1 (ct_id out.2) = Some out.2
     ∧ prompt_template out.2 = cc_prompt_template template_data
     ∧ variables out.2 ≡ₚ remove_dups (findall (prompt_template out.2)))
  ∧ (∀ db template_id upd db' t',
       update_template O db template_id upd = (db', Return (Some t')) ->
       is_Some (u_prompt_template upd) ->
       get_template db' template_id = Some t'
       ∧ u_prompt_template upd = Some (Some (prompt_template t'))
       ∧ variables t' ≡ₚ remove_dups (findall (prompt_template t')))
  ∧ (∀ db template_id upd t p,
       get_template db template_id = Some t ->
       u_prompt_template upd = Some (Some p) ->
       u_name upd ≠ Some None -> u_language upd ≠ Some None ->
       u_is_active upd ≠ Some None ->
       ∃ db' t', update_template O db template_id upd = (db', Return (Some t'))
                 ∧ prompt_template t' = p)
  ∧ (∀ segs (t : ContentTemplate),
       well_formed segs = true ->
       prompt_template t = template_text segs ->
       variables t ≡ₚ remove_dups (findall (prompt_template t)) ->
       ∀ x, x ∈ variables t ↔ x ∈ names segs).
Proof.
  split; [|split; [|split]].
  - intros db data by_user. cbv zeta. unfold create_template, get_template. simpl.
    split; [apply lookup_insert_eq|]. split; [done|]. apply extract_variables_distinct.
  - intros db template_id upd db' t' Hup [p Hp].
    unfold update_template in Hup.
    destruct (get_template db template_id) as [t|] eqn:Ht; [|discriminate].
    rewrite Hp in Hup. destruct p as [p|]; [|discriminate].
    destruct (apply_update O t upd) as [t1|] eqn:Happ; [|discriminate].
    injection Hup as <- <-.
    split; [unfold get_template; simpl; apply lookup_insert_eq|].
    unfold apply_update, update_variables in Happ. rewrite Hp in Happ. simpl in Happ.
    destruct (set_required (name t) (u_name upd)); simpl in Happ; [|discriminate].
    destruct (set_required (language t) (u_language upd)); simpl in Happ; [|discriminate].
    destruct (set_required (is_active t) (u_is_active upd)); simpl in Happ; [|discriminate].
    injection Happ as <-. simpl. split; [by rewrite Hp|]. apply extract_variables_distinct.
  - intros db template_id upd t p Ht Hp Hn Hl Ha.
    unfold update_template. rewrite Ht, Hp.
    unfold apply_update, update_variables. rewrite Hp. simpl.
    destruct (u_name upd) as [[?|]|]; [| done |];
      (destruct (u_language upd) as [[?|]|]; [| done |]);
      (destruct (u_is_active upd) as [[?|]|]; [| done |]); simpl; eauto.
  - intros segs t Hwf Hpt Hv x.
    rewrite Hv, elem_of_remove_dups, Hpt, findall_template_text by done. done.
Qed.

End TemplateFacts.

(** The request's own [variables] are ignored and a repeated placeholder is
    stored once. *)
Example greeting_variables :
  Templates.variables <$> Templates.get_template Scenarios.greeting_db 0%N
  = Some ["gift"; "name"].
Proof. vm_compute. reflexivity. Qed.

(** *** Rendering *)

Section RenderingFacts.
Import Templates Scenarios.

Variable values : Dict.

Lemma format_literal text : ∀ rest out,
  forallb_string (fun c => negb (contains c "{}")) text = true ->
  format_from (text +:+ rest) Text values out = format_from rest Text values (out +:+ text).
Proof.
  induction text as [|c text IH]; intros rest out.
  - intros _. by rewrite str_app_nil_r.
  - cbn [forallb_string]. intros [Hc Ht]%andb_true_iff.
    rewrite str_app_cons. cbn [format_from].
    destruct (Ascii.eqb c lbrace) eqn:E1.
    { apply Ascii.eqb_eq in E1 as ->. discriminate Hc. }
    destruct (Ascii.eqb c rbrace) eqn:E2.
    { apply Ascii.eqb_eq in E2 as ->. discriminate Hc. }
    rewrite IH by done. by rewrite str_app_assoc.
Qed.




(** A name whose first character is not a digit is looked up among the
    keyword arguments. *)
Lemma is_keyword_name_letter c nm :
  is_digit c = false -> is_keyword_name (String c nm) = true.
Proof. intros Hc. unfold is_keyword_name, get_integer. cbn [get_integer_from]. by rewrite Hc. Qed.





End RenderingFacts.

(** The two renderings of the specification. *)
Example render_hello_ana :
  Templates.test_template Scenarios.hello_db 0%N [("name", VStr "Ana")]
  = Templates.Rendered (Return "Hello Ana").
Proof. vm_compute. reflexivity. Qed.

Example render_hello_missing :
  Templates.test_template Scenarios.hello_db 0%N []
  = Templates.Rendered (Raise (mkExn ValueError "Missing variable: 'name'")).
Proof. vm_compute. reflexivity. Qed.

(** ** The theorems at concrete inputs *)

Lemma trigger_workflow_never_records_witness :
  Automation.trigger_workflow Scenarios.demo_services "2025-12-24T20:00:00"
    Scenarios.demo_registry 5%N None 7%N
  = ("2025-12-24T20:00:00", Scenarios.demo_registry,
     Raise (mkExn TypeError
              "one of the hex, bytes, bytes_le, fields, or int arguments must be given")).
Proof.
  apply (trigger_workflow_never_records Scenarios.demo_services _ _ 5%N
           Scenarios.demo_workflow).
  - vm_compute. reflexivity.
  - reflexivity.
Defined.

Lemma update_workflow_frame_witness :
  ∃ w',
    Automation._workflows
      (Automation.update_workflow Scenarios.demo_registry 5%N
         (Some "") (Some []) None (Some false)).1 !! 5%N = Some w'
    ∧ Automation.wf_name w' = "Daily post"
    ∧ Automation.wf_config w' = [("topic", VStr "water")]
    ∧ Automation.wf_schedule w' = None
    ∧ Automation.wf_is_active w' = false.
Proof.
  destruct (update_workflow_frame Scenarios.demo_registry 5%N Scenarios.demo_workflow
              (Some "") (Some []) None (Some false))
    as (w' & Hl & _ & Hn & _ & Hc & _ & Hs & _ & _ & Ha & _).
  - vm_compute. reflexivity.
  - exists w'. split; [exact Hl|].
    split; [apply Hn; by right|]. split; [apply Hc; by right|].
    split; [by apply Hs | by apply Ha].
Defined.

Lemma reject_task_forces_cancelled_witness :
  ∃ t',
    (Tasks.reject_task Scenarios.completed_db 0%N 9%N None).2 = Some t'
    ∧ Tasks.status t' = Tasks.CANCELLED
    ∧ Tasks.error_message t' = Some "Rejected by user: No reason provided".
Proof.
  assert (H : ∃ t, Tasks.get_task Scenarios.completed_db 0%N = Some t)
    by (vm_compute; eauto).
  destruct H as [t Ht].
  destruct (reject_task_forces_cancelled Scenarios.completed_db 0%N 9%N None t Ht)
    as (t' & Hret & _ & Hst & Hmsg & _).
  exists t'. auto.
Defined.


Lemma translate_stops_before_provider_witness :
  ∃ msg,
    Translation.translate Scenarios.down_provider 0%Q Lifecycle.empty_db
      "Hello" "en" "es" 7%N
    = (0%Q, Lifecycle.empty_db, Raise (mkExn ValidationError msg)).
Proof.
  apply (translate_stops_before_provider Scenarios.down_provider 0%Q Lifecycle.empty_db
           "Hello" "en" "es" 7%N); by vm_compute.
Defined.


Lemma get_workflow_history_positive_witness :
  Automation.get_workflow_history
    (Automation.mkRegistry ∅
       [Automation.mkExecution "a" (str_UUID 5%N) "t0" "t1" "completed" (Some VNone) None;
        Automation.mkExecution "b" (str_UUID 6%N) "t2" "t3" "failed" None (Some "boom");
        Automation.mkExecution "c" (str_UUID 5%N) "t4" "t5" "completed" (Some VNone) None;
        Automation.mkExecution "d" (str_UUID 5%N) "t6" "t7" "completed" (Some VNone) None])
    5%N 2
  = [Automation.mkExecution "c" (str_UUID 5%N) "t4" "t5" "completed" (Some VNone) None;
     Automation.mkExecution "d" (str_UUID 5%N) "t6" "t7" "completed" (Some VNone) None].
Proof.
  etrans; [apply (get_workflow_history_positive _ 5%N 2); lia|].
  vm_compute. reflexivity.
Defined.

Lemma trigger_workflow_guards_witness :
  ∃ msg,
    Automation.trigger_workflow Scenarios.demo_services "2025-12-24T20:00:00"
      Scenarios.demo_registry 6%N None 7%N
    = ("2025-12-24T20:00:00", Scenarios.demo_registry, Raise (mkExn ValueError msg)).
Proof.
  apply (trigger_workflow_guards Scenarios.demo_services).
  left. vm_compute. reflexivity.
Defined.

(** * Further properties of the code *)

(** ** The workflow registry *)

Section RegistryFacts.
Import Automation AutomationCrud Scenarios.

Context {W : Type} (S : Services W).

(** [delete_workflow] answers whether the workflow was registered and
    removes that entry alone.  The execution history is not purged: the
    records of a deleted workflow are still returned by
    [get_workflow_history]. *)
Theorem delete_workflow_keeps_history (r : registry) (workflow_id : UUID) :
  (delete_workflow r workflow_id).2 = bool_decide (is_Some (_workflows r !! workflow_id))
  ∧ _workflows (delete_workflow r workflow_id).1 !! workflow_id = None
  ∧ (∀ k, k ≠ workflow_id ->
       _workflows (delete_workflow r workflow_id).1 !! k = _workflows r !! k)
  ∧ (∀ k limit,
       get_workflow_history (delete_workflow r workflow_id).1 k limit
       = get_workflow_history r k limit).
Proof.
  unfold delete_workflow.
  destruct (_workflows r !! workflow_id) as [w|] eqn:Hw; simpl.
  - split; [done|].
    split; [apply lookup_delete_eq|]. split; [|done].
    intros k Hk. by apply lookup_delete_ne.
  - by rewrite Hw.
Qed.

(** A workflow just created is active and is what [get_workflow] returns
    under its identifier; the other workflows and the history are as
    before. *)
Theorem create_workflow_registers
    (r : registry) (workflow_id : UUID) (now name wtype : string) (config : Dict)
    (schedule : option string) (created_by : UUID) :
  let r' := (create_workflow r workflow_id now name wtype config schedule created_by).1 in
  get_workflow r' workflow_id
  = Some (mkInfo (str_UUID workflow_id) name wtype config schedule true
                 (str_UUID created_by) now)
  ∧ (∀ k, k ≠ workflow_id -> get_workflow r' k = get_workflow r k)
  ∧ _workflow_history r' = _workflow_history r.
Proof.
  cbv zeta. unfold create_workflow, get_workflow. simpl.
  split; [by rewrite lookup_insert_eq|]. split; [|done].
  intros k Hk. by rewrite lookup_insert_ne.
Qed.

(** A workflow that was created and then switched off with
    [update_workflow(is_active=False)] is refused by [trigger_workflow]
    with [ValueError]; the outside world and the history are untouched. *)
Theorem deactivated_workflow_is_refused
    (w : W) (r : registry) (workflow_id : UUID) (now name wtype : string) (config : Dict)
    (schedule : option string) (created_by caller : UUID) (trigger_data : option Dict) :
  let r1 := (create_workflow r workflow_id now name wtype config schedule created_by).1 in
  let r2 := (update_workflow r1 workflow_id None None None (Some false)).1 in
  trigger_workflow S w r2 workflow_id trigger_data caller
  = (w, r2, Raise (mkExn ValueError
                     ("Workflow " +:+ str_UUID workflow_id +:+ " is not active")))
  ∧ _workflow_history r2 = _workflow_history r.
Proof.
  cbv zeta. unfold create_workflow, update_workflow, trigger_workflow. simpl.
  rewrite lookup_insert_eq. simpl. by rewrite lookup_insert_eq.
Qed.

(** The [auto_translate] handler needs a [content_id]: when the trigger
    data is absent, empty, lacks the key or binds it to a falsy value, the
    dispatch raises [ValueError] and the translation service is not
    called. *)
Theorem auto_translate_requires_content_id
    (w : W) (workflow : AutomationWorkflow) (trigger_data : option Dict) (created_by : UUID) :
  workflow_type workflow = "auto_translate" ->
  (∀ d v, trigger_data = Some d -> dict_get d "content_id" = Some v -> truthy v = false) ->
  dispatch S w workflow trigger_data created_by
  = (w, Raise (mkExn ValueError "content_id required for auto_translate workflow")).
Proof.
  intros Ht Hid. unfold dispatch, _execute_auto_translate. rewrite Ht. simpl.
  destruct trigger_data as [d|]; [|done].
  destruct (dict_truthy d); [|done]. unfold get_default.
  destruct (dict_get d "content_id") as [v|] eqn:Hv; [|done].
  by rewrite (Hid d v eq_refl Hv).
Qed.

End RegistryFacts.

Lemma auto_translate_requires_content_id_witness :
  Automation.dispatch Scenarios.demo_services "2025-12-24T20:00:00"
    (Automation.mkWorkflow 8%N "Translate" "auto_translate" [] None true 7%N "t0")
    (Some [("content_id", VStr ""); ("note", VStr "x")]) 7%N
  = ("2025-12-24T20:00:00",
     Raise (mkExn ValueError "content_id required for auto_translate workflow")).
Proof.
  apply (auto_translate_requires_content_id Scenarios.demo_services); [reflexivity|].
  intros d v [= <-] Hv. vm_compute in Hv. by injection Hv as <-.
Defined.

(** ** Tasks and their jobs *)

Section DatabaseFacts.
Import Gateway Tasks Translation Lifecycle TaskAdmin Scenarios.


Context {W : Type} (P : Provider W).

(** In every database reached through the lifecycle operations: a task is
    stored under its own identifier, which the key supply has already
    passed; an approved task has its approver and approval time; and there
    is no translation job at all, since [translate] stops before it adds
    one. *)
Theorem reachable_well_formed (db : Session) :
  reachable P db ->
  (∀ k t, tasks db !! k = Some t ->
     t_id t = k ∧ (k < next_uuid db)%N
     ∧ (approved t = true -> is_Some (approved_by t) ∧ is_Some (approved_at t)))
  ∧ translation_jobs db = ∅.
Proof.
  induction 1 as [| db data by_user Hr [IHt IHj] | db w text sl tl by_user Hr [IHt IHj]
                  | db w text kind context by_user Hr [IHt IHj]
                  | db image_prompt size style by_user elapsed Hr [IHt IHj]
                  | db task_id by_user now Hr [IHt IHj]
                  | db task_id by_user reason Hr [IHt IHj]].
  - split; [|done]. intros k x Hk; simpl in Hk; by rewrite lookup_empty in Hk.
  - unfold create_task. simpl. split; [|done].
    intros k t Hk. destruct (decide (k = next_uuid db)) as [->|Hne].
    + rewrite lookup_insert_eq in Hk. injection Hk as <-. simpl.
      split; [done|]. split; [lia | discriminate].
    + rewrite lookup_insert_ne in Hk by done.
      destruct (IHt k t Hk) as (? & ? & ?). split; [done|]. split; [lia | done].
  - destruct (translate_raises P w db text sl tl by_user) as [e ->]. by split.
  - destruct (enhance_content_raises P w db text kind context by_user) as [e ->]. by split.
  - destruct (generate_image_raises db image_prompt size style by_user elapsed) as [e ->].
    by split.
  - unfold approve_task.
    destruct (get_task db task_id) as [t0|] eqn:H0; simpl; [|by split].
    split; [|done].
    intros k t Hk. destruct (decide (k = task_id)) as [->|Hne].
    + rewrite lookup_insert_eq in Hk. injection Hk as <-. simpl.
      destruct (IHt _ _ H0) as (? & ? & ?). split; [done|]. split; [done|]. eauto.
    + rewrite lookup_insert_ne in Hk by done. by apply IHt.
  - unfold reject_task.
    destruct (get_task db task_id) as [t0|] eqn:H0; simpl; [|by split].
    split; [|done].
    intros k t Hk. destruct (decide (k = task_id)) as [->|Hne].
    + rewrite lookup_insert_eq in Hk. injection Hk as <-. simpl.
      destruct (IHt _ _ H0) as (? & ? & ?). split; [done|]. split; done.
    + rewrite lookup_insert_ne in Hk by done. by apply IHt.
Qed.

End DatabaseFacts.


Lemma reachable_well_formed_witness :
  ∃ t,
    Tasks.tasks
      (Tasks.approve_task
         (Tasks.create_task Lifecycle.empty_db Scenarios.hello_request 7%N).1
         0%N 3%N "2025-12-24T20:00:00").1 !! 0%N = Some t
    ∧ Tasks.t_id t = 0%N
    ∧ Tasks.approved_by t = Some 3%N
    ∧ is_Some (Tasks.approved_at t).
Proof.
  set (db := (Tasks.approve_task
                (Tasks.create_task Lifecycle.empty_db Scenarios.hello_request 7%N).1
                0%N 3%N "2025-12-24T20:00:00").1).
  assert (H : ∃ t, Tasks.tasks db !! 0%N = Some t ∧ Tasks.approved t = true
                   ∧ Tasks.approved_by t = Some 3%N) by (vm_compute; eauto).
  destruct H as (t & Hk & Ha & Hby). exists t. split; [exact Hk|].
  destruct (reachable_well_formed Scenarios.slow_provider db) as [Ht _].
  - apply Lifecycle.reach_approve, Lifecycle.reach_create, Lifecycle.reach_empty.
  - destruct (Ht 0%N t Hk) as (Hid & _ & Happ).
    split; [exact Hid|]. split; [exact Hby|]. by apply Happ.
Defined.

(** ** Task administration *)

Section TaskAdminFacts.
Import Tasks Lifecycle TaskAdmin Scenarios.


(** A [null] for [status] or [approved] makes the commit fail and the
    stored task is left as it was; an unknown task gives [None]. *)
Theorem update_task_failure_keeps_db
    (db : Session) (task_id : UUID) (upd : AITaskUpdate) :
  (get_task db task_id = None -> update_task db task_id upd = (db, Return None))
  ∧ (∀ e, (update_task db task_id upd).2 = Raise e -> (update_task db task_id upd).1 = db)
  ∧ (is_Some (get_task db task_id) ->
     up_status upd = Some None ∨ up_approved upd = Some None ->
     ∃ e, update_task db task_id upd = (db, Raise e)).
Proof.
  unfold update_task. destruct (get_task db task_id) as [t|]; simpl.
  - split; [done|]. unfold apply_task_update.
    destruct (up_status upd) as [[s|]|], (up_approved upd) as [[b|]|]; simpl;
      (split; [done|]); intros _ [[=]|[=]]; eauto.
  - split; [done|]. split; [done|]. by intros [? [=]].
Qed.

(** [delete_task] answers whether the task was stored.  If it was, the task
    and every translation job that belongs to it are gone and all other
    rows are kept; if it was not, nothing changes. *)
Theorem delete_task_cascades (db : Session) (task_id : UUID) :
  (delete_task db task_id).2 = bool_decide (is_Some (get_task db task_id))
  ∧ get_task (delete_task db task_id).1 task_id = None
  ∧ (∀ k, k ≠ task_id -> get_task (delete_task db task_id).1 k = get_task db k)
  ∧ (is_Some (get_task db task_id) ->
     ∀ k j, translation_jobs (delete_task db task_id).1 !! k = Some j
            ↔ translation_jobs db !! k = Some j ∧ j_task_id j ≠ task_id)
  ∧ (get_task db task_id = None -> (delete_task db task_id).1 = db).
Proof.
  unfold delete_task, get_task.
  destruct (tasks db !! task_id) as [t|] eqn:Ht; simpl.
  - split; [done|]. split; [apply lookup_delete_eq|].
    split; [intros k Hk; by apply lookup_delete_ne|].
    split; [|done]. intros _ k j. by rewrite map_lookup_filter_Some.
  - rewrite Ht. split; [done|]. split; [done|]. split; [done|].
    split; [by intros [? [=]] | done].
Qed.

Lemma count_partition_status (rows : list AITask) :
  sum_list ((fun s => count_of status rows s) <$> all_statuses) = length rows.
Proof.
  unfold count_of, all_statuses. simpl.
  induction rows as [|t rows IH]; [done|]. simpl.
  destruct (status t); simpl; lia.
Qed.

Lemma count_partition_type (rows : list AITask) :
  sum_list ((fun k => count_of task_type rows k) <$> all_types) = length rows.
Proof.
  unfold count_of, all_types. simpl.
  induction rows as [|t rows IH]; [done|]. simpl.
  destruct (task_type t); simpl; lia.
Qed.

Lemma sum_nonzero {K} (l : list (K * nat)) :
  sum_list (List.filter (fun kn => negb (Nat.eqb kn.2 0)) l).*2 = sum_list l.*2.
Proof.
  induction l as [|[k n] l IH]; simpl in *; [done|].
  destruct n; simpl in *; [exact IH | do 2 f_equal; exact IH].
Qed.

Lemma snd_prod_map {A B} (f : A -> B) (l : list (A * nat)) :
  (prod_map f id <$> l).*2 = l.*2.
Proof. induction l as [|[a n] l IH]; [done|]. cbn. f_equal. exact IH. Qed.

Lemma listed_counts_positive {A B} (f : A -> B) (l : list (A * nat)) :
  Forall (fun kn => 0 < kn.2)
    (prod_map f id <$> List.filter (fun kn => negb (Nat.eqb kn.2 0)) l).
Proof.
  induction l as [|[a n] l IH]; [constructor|].
  destruct n; cbn; [exact IH|]. constructor; [cbn; lia | exact IH].
Qed.

Lemma filter_all {A} (l : list A) : List.filter (fun _ => true) l = l.
Proof. induction l as [|x l IH]; [done|]. cbn. f_equal. exact IH. Qed.

(** The statistics add up: the counts of [by_status] sum to [total_tasks],
    and so do those of [by_type]; no group is listed with a count of zero;
    without a creator filter the total is the number of stored tasks. *)
Theorem statistics_add_up (db : Session) (by_user : option UUID) :
  let st := get_task_statistics db by_user in
  sum_list (by_status st).*2 = total_tasks st
  ∧ sum_list (by_type st).*2 = total_tasks st
  ∧ Forall (fun kn => 0 < kn.2) (by_status st)
  ∧ Forall (fun kn => 0 < kn.2) (by_type st)
  ∧ (by_user = None -> total_tasks st = size (tasks db)).
Proof.
  cbv zeta. unfold get_task_statistics, group_count.
  cbn [total_tasks by_status by_type].
  rewrite !snd_prod_map, !sum_nonzero.
  split.
  { etrans; [|apply (count_partition_status (selected db by_user))].
    by rewrite <- list_fmap_compose. }
  split.
  { etrans; [|apply (count_partition_type (selected db by_user))].
    by rewrite <- list_fmap_compose. }
  split; [apply listed_counts_positive|]. split; [apply listed_counts_positive|].
  intros ->. unfold selected.
  by rewrite filter_all, length_fmap, length_map_to_list.
Qed.

End TaskAdminFacts.


(** ** Translation, continued *)

Section TranslateMoreFacts.
Import Gateway Tasks Translation Lifecycle AutoTranslate Scenarios.

Context {W : Type} (P : Provider W).

(** What [translate_text] makes of a provider response whose [content] is
    a string and whose [usage] is absent or a dictionary: the stripped
    content, the reported token count ([0] when there is none) and the
    constant quality score [0.85]. *)
Lemma translate_text_return w w' text source_lang target_lang res content usage :
  chat_llm P w (translate_request text source_lang target_lang) = (w', Return res) ->
  dict_get res "content" = Some (VStr content) ->
  Automation.get_default res "usage" (VDict []) = VDict usage ->
  translate_text P w text source_lang target_lang
  = (w', Return (mkTranslation (strip content)
                   (Automation.get_default usage "total_tokens" (VInt 0)) (85 # 100))).
Proof.
  intros Hcall Hc Hu. unfold translate_text, generate_text, translate_request in *.
  rewrite Hcall. unfold total_tokens. rewrite Hu. simpl.
  unfold Automation.get_default. by rewrite Hc.
Qed.

(** A language outside [SUPPORTED_LANGUAGES] is refused with [ValueError]
    before anything happens: no task or job is stored, the provider is not
    called and the world is as it was.  The source language is checked
    first. *)
Theorem translate_refuses_language
    (w : W) (db : Session) (text source_lang target_lang : string) (by_user : UUID) :
  (supported source_lang = false ->
   translate P w db text source_lang target_lang by_user
   = (w, db, Raise (mkExn ValueError ("Unsupported source language: " +:+ source_lang))))
  ∧ (supported source_lang = true -> supported target_lang = false ->
     translate P w db text source_lang target_lang by_user
     = (w, db, Raise (mkExn ValueError ("Unsupported target language: " +:+ target_lang)))).
Proof.
  unfold translate.
  split; [intros -> | intros -> ->]; reflexivity.
Qed.

(** A batch shares its two languages: when one of them is not supported
    every entry of the result is an error entry with its own text, and
    neither the database nor the world changes. *)
Theorem batch_translate_refused_language
    (w : W) (db : Session) (texts : list string) (source_lang target_lang : string)
    (by_user : UUID) :
  supported source_lang && supported target_lang = false ->
  ∃ msg,
    batch_translate P w db texts source_lang target_lang by_user
    = (w, db, Return ((fun text => [("error", VStr msg); ("text", VStr text)]) <$> texts)).
Proof.
  intros Hno.
  assert (Hone : ∃ msg, ∀ text,
             translate P w db text source_lang target_lang by_user
             = (w, db, Raise (mkExn ValueError msg))).
  { unfold translate.
    destruct (supported source_lang); simpl in *; [|by eexists].
    destruct (supported target_lang); simpl in *; [done | by eexists]. }
  destruct Hone as [msg Hone]. exists msg. unfold batch_translate.
  assert (Hloop : ∀ acc,
             batch_loop P w db texts source_lang target_lang by_user acc
             = (w, db, acc ++ ((fun text => [("error", VStr msg); ("text", VStr text)])
                                 <$> texts))).
  { induction texts as [|text rest IH]; intros acc; simpl.
    - by rewrite app_nil_r.
    - rewrite Hone. simpl. rewrite IH. by rewrite <- app_assoc. }
  by rewrite Hloop.
Qed.

End TranslateMoreFacts.

Lemma batch_translate_refused_language_witness :
  ∃ msg,
    Translation.batch_translate Scenarios.slow_provider 0%Q Lifecycle.empty_db
      ["Hello"; "Welcome"] "en" "de" 7%N
    = (0%Q, Lifecycle.empty_db,
       Return [[("error", VStr msg); ("text", VStr "Hello")];
               [("error", VStr msg); ("text", VStr "Welcome")]]).
Proof.
  apply (batch_translate_refused_language Scenarios.slow_provider 0%Q Lifecycle.empty_db
           ["Hello"; "Welcome"] "en" "de" 7%N).
  by vm_compute.
Defined.

Section AutoTranslateFacts.
Import Gateway Tasks Translation Lifecycle AutoTranslate Scenarios.

Context {W : Type} (P : Provider W).

Lemma dict_get_set d key v key' :
  dict_get (dict_set d key v) key' = if String.eqb key key' then Some v else dict_get d key'.
Proof.
  induction d as [|[k v0] d IH]; simpl.
  - done.
  - destruct (String.eqb k key) eqn:Hk; simpl.
    + apply String.eqb_eq in Hk as ->. by destruct (String.eqb key key').
    + rewrite IH. destruct (String.eqb k key') eqn:Hk'; [|done].
      apply String.eqb_eq in Hk' as ->. by rewrite String.eqb_sym, Hk.
Qed.

Lemma dict_set_keys d key v :
  NoDup d.*1 -> NoDup (dict_set d key v).*1.
Proof.
  induction d as [|[k v0] d IH]; simpl; intros Hnd.
  - apply NoDup_singleton.
  - apply NoDup_cons in Hnd as [Hk Hnd].
    destruct (String.eqb k key) eqn:E; simpl; [by apply NoDup_cons|].
    apply NoDup_cons. split; [|by apply IH].
    intros Hin. apply Hk. clear -Hin E.
    induction d as [|[k1 v1] d IHd]; simpl in *.
    + apply list_elem_of_singleton in Hin as ->. by rewrite String.eqb_refl in E.
    + destruct (String.eqb k1 key) eqn:E1; simpl in *; [done|].
      apply elem_of_cons in Hin as [->|Hin]; [left | right; by apply IHd].
Qed.

Lemma translate_each_spec content by_user targets : ∀ w db acc,
  ∃ w' db' tr,
    translate_each P w db content targets by_user acc = (w', db', tr)
    ∧ (∀ l, is_Some (dict_get tr l)
            ↔ is_Some (dict_get acc l) ∨ (l ∈ targets ∧ l ≠ gc_language content))
    ∧ (NoDup acc.*1 -> NoDup tr.*1)
    ∧ (supported (gc_language content) = true ->
       ∀ l, supported l = false -> l ≠ gc_language content ->
            l ∈ targets ∨ dict_get acc l = Some (unsupported_entry l) ->
            dict_get tr l = Some (unsupported_entry l)).
Proof.
  induction targets as [|target rest IH]; intros w db acc; simpl.
  - exists w, db, acc. split; [done|]. split; [|split; [done|]].
    + intros l. split; [by left|]. intros [?|[Hin _]]; [done|]. by apply elem_of_nil in Hin.
    + intros _ l _ _ [Hin|?]; [by apply elem_of_nil in Hin | done].
  - destruct (String.eqb target (gc_language content)) eqn:Hsrc.
    + apply String.eqb_eq in Hsrc as ->.
      destruct (IH w db acc) as (w' & db' & tr & -> & Hkeys & Hnd & Hun).
      exists w', db', tr. split; [done|]. split; [|split; [done|]].
      * intros l. rewrite Hkeys. rewrite elem_of_cons. tauto.
      * intros Hs l Hl Hne [Hin|Hacc]; apply Hun; try done; [|by right].
        apply elem_of_cons in Hin as [->|Hin]; [done | by left].
    + apply String.eqb_neq in Hsrc.
      assert (Hstep : ∃ w1 db1 entry,
                 (∀ acc0,
                    match translate P w db (gc_body content) (gc_language content)
                            target by_user with
                    | (w', db', Return translation) =>
                        translate_each P w' db' content rest by_user
                          (dict_set acc0 target (VDict translation))
                    | (w', db', Raise e) =>
                        translate_each P w' db' content rest by_user
                          (dict_set acc0 target (VDict [("error", VStr (exn_str e))]))
                    end
                    = translate_each P w1 db1 content rest by_user
                        (dict_set acc0 target entry))
                 ∧ (supported (gc_language content) = true -> supported target = false ->
                    entry = unsupported_entry target)).
      { destruct (translate P w db (gc_body content) (gc_language content) target by_user)
          as [[w1 db1] [tr0|e]] eqn:Htr; eexists w1, db1, _; (split; [done|]);
          intros Hs Ht; unfold translate in Htr; rewrite Hs, Ht in Htr; simpl in Htr.
        - discriminate.
        - by injection Htr as <- <- <-. }
      destruct Hstep as (w1 & db1 & entry & -> & Hentry).
      destruct (IH w1 db1 (dict_set acc target entry)) as (w' & db' & tr & -> & Hkeys & Hnd & Hun).
      exists w', db', tr. split; [done|]. split; [|split].
      * intros l. rewrite Hkeys, dict_get_set, elem_of_cons.
        destruct (String.eqb target l) eqn:E.
        -- apply String.eqb_eq in E as ->. split; [intros _; right; split; auto|].
           intros _. left. eauto.
        -- apply String.eqb_neq in E. assert (l ≠ target) by congruence. tauto.
      * intros Hacc. by apply Hnd, dict_set_keys.
      * intros Hs l Hl Hne Hcase. apply Hun; try done.
        rewrite dict_get_set.
        destruct (String.eqb target l) eqn:E.
        -- apply String.eqb_eq in E as ->. right. by rewrite Hentry.
        -- apply String.eqb_neq in E.
           destruct Hcase as [Hin|Hacc]; [|by right].
           apply elem_of_cons in Hin as [->|Hin]; [done | by left].
Qed.

(** [auto_translate_content] raises [ValueError] for an unknown content
    and otherwise always returns: [translations] has exactly one entry for
    each requested language other than the content's own, which is
    skipped; and when the content's language is supported, a requested
    language that is not supported gets the entry
    [{"error": "Unsupported target language: ..."}] while the other
    languages are still translated. *)
Theorem auto_translate_content_entries
    (w : W) (db : Session) (contents : gmap UUID GeneratedContent) (content_id : UUID)
    (target_languages : list string) (by_user : UUID) :
  (contents !! content_id = None ->
   auto_translate_content P w db contents content_id target_languages by_user
   = (w, db, Raise (mkExn ValueError ("Content " +:+ str_UUID content_id +:+ " not found"))))
  ∧ (∀ content, contents !! content_id = Some content ->
       ∃ w' db' translations,
         auto_translate_content P w db contents content_id target_languages by_user
         = (w', db',
            Return [("content_id", VStr (str_UUID content_id));
                    ("source_language", VStr (gc_language content));
                    ("translations", VDict translations)])
         ∧ NoDup translations.*1
         ∧ (∀ l, is_Some (dict_get translations l)
                 ↔ l ∈ target_languages ∧ l ≠ gc_language content)
         ∧ (supported (gc_language content) = true ->
            ∀ l, l ∈ target_languages -> l ≠ gc_language content -> supported l = false ->
                 dict_get translations l = Some (unsupported_entry l))).
Proof.
  unfold auto_translate_content. split; [by intros ->|].
  intros content ->.
  destruct (translate_each_spec content by_user target_languages w db [])
    as (w' & db' & tr & -> & Hkeys & Hnd & Hun).
  exists w', db', tr. split; [done|]. split; [apply Hnd; constructor|]. split.
  - intros l. rewrite Hkeys. simpl. split; [intros [[? [=]]|?]; done | by right].
  - intros Hs l Hin Hne Hl. apply Hun; auto.
Qed.

End AutoTranslateFacts.

(** ** The gateway, continued *)

Section StripFacts.
Import Gateway.

Lemma rev_app_append s : ∀ t, String.rev_app s t = String.rev_app s "" +:+ t.
Proof.
  induction s as [|a s IH]; intros t; [done|]. cbn [String.rev_app].
  rewrite (IH (String a t)), (IH (String a "")). by rewrite str_app_assoc.
Qed.

Lemma rev_cons a s : String.rev (String a s) = String.rev s +:+ String a "".
Proof. unfold String.rev. cbn [String.rev_app]. apply rev_app_append. Qed.

Lemma rev_append s t : String.rev (s +:+ t) = String.rev t +:+ String.rev s.
Proof.
  induction s as [|a s IH].
  - change ("" +:+ t) with t. by rewrite str_app_nil_r.
  - rewrite str_app_cons, !rev_cons, IH. by rewrite str_app_assoc.
Qed.

Lemma rev_involutive s : String.rev (String.rev s) = s.
Proof.
  induction s as [|a s IH]; [done|]. by rewrite rev_cons, rev_append, IH.
Qed.

Lemma lstrip_head s c rest : lstrip s = String c rest -> is_space c = false.
Proof.
  induction s as [|a s IH]; [done|]. cbn [lstrip].
  destruct (is_space a) eqn:E; [done|]. by intros [= <- _].
Qed.

Lemma lstrip_suffix s : ∃ pre, s = pre +:+ lstrip s.
Proof.
  induction s as [|a s [pre IH]]; [by exists ""|]. cbn [lstrip].
  destruct (is_space a); [|by exists ""].
  exists (String a pre). by rewrite str_app_cons, <- IH.
Qed.

(** [strip] leaves no white space at either end. *)
Lemma strip_edges s :
  (∀ c rest, strip s = String c rest -> is_space c = false)
  ∧ (∀ c front, strip s = front +:+ String c "" -> is_space c = false).
Proof.
  unfold strip.
  destruct (lstrip_suffix (String.rev (lstrip s))) as [pre Hpre].
  set (v := lstrip (String.rev (lstrip s))) in *.
  split.
  - intros c rest Hv.
    assert (Hu : lstrip s = String c (rest +:+ String.rev pre)).
    { rewrite <- (rev_involutive (lstrip s)), Hpre, rev_append, Hv. done. }
    by apply lstrip_head in Hu.
  - intros c front Hv.
    assert (Hv' : v = String c (String.rev front)).
    { rewrite <- (rev_involutive v), Hv, rev_append. done. }
    by apply lstrip_head in Hv'.
Qed.

End StripFacts.

Section GatewayMoreFacts.
Import Gateway Tasks Translation Enhancement Scenarios.

Context {W : Type} (P : Provider W).

(** [translate_text] on a provider response whose [content] is a string
    (of code points below 256) and whose [usage] is absent or a
    dictionary: the translated text is the content without the white
    space at its ends, the token count is the provider's [total_tokens]
    ([0] when it gives none), and the quality score is [0.85] whatever the
    provider answered. *)
Theorem translate_text_normalises
    (w w' : W) (text source_lang target_lang : string) (res : Dict)
    (content : string) (usage : Dict) :
  chat_llm P w (translate_request text source_lang target_lang) = (w', Return res) ->
  dict_get res "content" = Some (VStr content) ->
  Automation.get_default res "usage" (VDict []) = VDict usage ->
  ∃ tr,
    translate_text P w text source_lang target_lang = (w', Return tr)
    ∧ tr_translated_text tr = strip content
    ∧ (∀ c rest, tr_translated_text tr = String c rest -> is_space c = false)
    ∧ (∀ c front, tr_translated_text tr = front +:+ String c "" -> is_space c = false)
    ∧ tr_tokens_used tr = Automation.get_default usage "total_tokens" (VInt 0)
    ∧ tr_quality_score tr = 85 # 100.
Proof.
  intros Hcall Hc Hu. eexists.
  split; [by apply (translate_text_return P _ _ _ _ _ _ _ _ Hcall Hc Hu)|].
  simpl. split; [done|]. destruct (strip_edges content) as [H1 H2]. auto.
Qed.

Lemma enhancement_prompt_context enhancement_type c1 c2 :
  enhancement_type ≠ "tone" ->
  enhancement_prompt enhancement_type c1 = enhancement_prompt enhancement_type c2.
Proof.
  intros Hne. unfold enhancement_prompt.
  destruct (String.eqb enhancement_type "grammar"); [done|].
  destruct (String.eqb enhancement_type "tone") eqn:E; [|done].
  by apply String.eqb_eq in E.
Qed.

Lemma enhancement_prompt_fallback enhancement_type c :
  enhancement_type ∉ ENHANCEMENT_TYPES ->
  enhancement_prompt enhancement_type c = enhancement_prompt "improve" c.
Proof.
  intros Hno. unfold enhancement_prompt.
  destruct (String.eqb enhancement_type "grammar") eqn:E1;
    [apply String.eqb_eq in E1 as ->; exfalso; apply Hno; set_solver|].
  destruct (String.eqb enhancement_type "tone") eqn:E2;
    [apply String.eqb_eq in E2 as ->; exfalso; apply Hno; set_solver|].
  destruct (String.eqb enhancement_type "seo") eqn:E3;
    [apply String.eqb_eq in E3 as ->; exfalso; apply Hno; set_solver|].
  destruct (String.eqb enhancement_type "summarize") eqn:E4;
    [apply String.eqb_eq in E4 as ->; exfalso; apply Hno; set_solver|].
  done.
Qed.

(** [enhance_text] uses the additional context for the kind "tone" only:
    for every other kind the call is the same whatever the context; and a
    kind outside the five known ones is treated as "improve". *)
Theorem enhance_text_context
    (w : W) (text enhancement_type : string) (c1 c2 : option string) :
  (enhancement_type ≠ "tone" ->
   enhance_text P w text enhancement_type c1 = enhance_text P w text enhancement_type c2)
  ∧ (enhancement_type ∉ ENHANCEMENT_TYPES ->
     enhance_text P w text enhancement_type c1 = enhance_text P w text "improve" c1).
Proof.
  unfold enhance_text. split; intros H.
  - by rewrite (enhancement_prompt_context enhancement_type c1 c2 H).
  - by rewrite (enhancement_prompt_fallback enhancement_type c1 H).
Qed.

(** [enhance_content] never gets to the provider.  A kind outside
    [ENHANCEMENT_TYPES] is refused with [ValueError]; for each of the five
    known kinds the schema object for [create_task] is built without the
    required [created_by], and the call ends with pydantic's
    [ValidationError].  Either way the world and the database are as they
    were: no task is stored and the provider is not called.  So the four
    shorthands, whose kinds are known ones, end that way on every input. *)
Theorem enhance_content_stops_at_schema
    (w : W) (db : Session) (text enhancement_type : string) (context : option string)
    (by_user : UUID) :
  (enhancement_type ∉ ENHANCEMENT_TYPES ->
   enhance_content P w db text enhancement_type context by_user
   = (w, db, Raise (mkExn ValueError ("Unsupported enhancement type: " +:+ enhancement_type))))
  ∧ ∃ msg,
      (enhancement_type ∈ ENHANCEMENT_TYPES ->
       enhance_content P w db text enhancement_type context by_user
       = (w, db, Raise (mkExn ValidationError msg)))
      ∧ fix_grammar P w db text by_user = (w, db, Raise (mkExn ValidationError msg))
      ∧ (∀ target_tone,
           adjust_tone P w db text target_tone by_user
           = (w, db, Raise (mkExn ValidationError msg)))
      ∧ (∀ keywords,
           optimize_seo P w db text keywords by_user
           = (w, db, Raise (mkExn ValidationError msg)))
      ∧ (∀ max_length,
           summarize P w db text max_length by_user
           = (w, db, Raise (mkExn ValidationError msg))).
Proof.
  unfold fix_grammar, adjust_tone, optimize_seo, summarize, enhance_content.
  split; [intros Hno; by rewrite bool_decide_eq_false_2|].
  eexists. split; [intros Hin; rewrite bool_decide_eq_true_2 by done; reflexivity|].
  repeat split.
Qed.

End GatewayMoreFacts.

(** ** Images *)

Section ImageFacts.
Import Tasks Translation Images.

(** [generate_image] of the image service ends with an exception on every
    input and stores nothing: [ValueError] for a size outside
    [SUPPORTED_SIZES], and for a supported size pydantic's
    [ValidationError], since the schema object for [create_task] is built
    without the required [created_by].  The placeholder of the client is
    never asked for. *)
Theorem generate_image_stops_at_schema
    (db : Session) (image_prompt size : string) (style : option string)
    (by_user : UUID) (elapsed : Q) :
  (size ∉ SUPPORTED_SIZES ->
   generate_image db image_prompt size style by_user elapsed
   = (db, Raise (mkExn ValueError ("Unsupported size: " +:+ size))))
  ∧ (size ∈ SUPPORTED_SIZES ->
     ∃ msg, generate_image db image_prompt size style by_user elapsed
            = (db, Raise (mkExn ValidationError msg))).
Proof.
  unfold generate_image. split.
  - intros Hno. by rewrite bool_decide_eq_false_2.
  - intros Hin. rewrite bool_decide_eq_true_2 by done. by eexists.
Qed.

End ImageFacts.

Lemma translate_text_normalises_witness :
  ∃ tr,
    Gateway.translate_text Scenarios.slow_provider 0%Q "Hello" "en" "es"
    = ((0 + 3600)%Q, Return tr)
    ∧ Gateway.tr_translated_text tr = "Hola".
Proof.
  destruct (translate_text_normalises Scenarios.slow_provider 0%Q (0 + 3600)%Q
              "Hello" "en" "es" (Scenarios.reply " Hola ") " Hola "
              [("total_tokens", VInt 12)] eq_refl eq_refl eq_refl)
    as (tr & Heq & Htext & _).
  exists tr. split; [exact Heq|]. rewrite Htext. vm_compute. reflexivity.
Defined.

(** ** Content templates, continued *)

Section TemplateMoreFacts.
Import Templates TemplateAdmin Scenarios.

Lemma findall_from_sound s : ∀ group x,
  x ∈ findall_from s group ->
  x ≠ ""
  ∧ ((∃ pre post, s = pre +:+ String lbrace (x +:+ String rbrace post)
                  ∧ contains rbrace x = false)
     ∨ (∃ g mid post, group = Some g ∧ x = g +:+ mid
                      ∧ s = mid +:+ String rbrace post ∧ contains rbrace mid = false)).
Proof.
  induction s as [|c s IH]; intros group x Hx; [by apply elem_of_nil in Hx|].
  cbn [findall_from] in Hx. destruct group as [g|].
  - destruct (Ascii.eqb c rbrace) eqn:Ec.
    + apply Ascii.eqb_eq in Ec as ->.
      assert (Hrest : x ∈ findall_from s None ->
                x ≠ "" ∧ ((∃ pre post, String rbrace s
                                       = pre +:+ String lbrace (x +:+ String rbrace post)
                                       ∧ contains rbrace x = false)
                          ∨ (∃ g0 mid post, Some g = Some g0 ∧ x = g0 +:+ mid
                                            ∧ String rbrace s = mid +:+ String rbrace post
                                            ∧ contains rbrace mid = false))).
      { intros H. destruct (IH None x H) as [Hne [(pre & post & -> & Hc)|(? & ? & ? & [=] & _)]].
        split; [done|]. left. by exists (String rbrace pre), post. }
      destruct g as [|a g]; [by apply Hrest|].
      apply elem_of_cons in Hx as [->|Hx]; [|by apply Hrest].
      split; [done|]. right. exists (String a g), "", s.
      by rewrite str_app_nil_r.
    + destruct (IH _ x Hx) as [Hne [(pre & post & -> & Hc)|(g0 & mid & post & [= <-] & -> & -> & Hc)]];
        (split; [done|]).
      * left. by exists (String c pre), post.
      * right. exists g, (String c mid), post. rewrite str_app_assoc.
        split; [done|]. split; [done|]. split; [done|].
        rewrite contains_cons. rewrite Ascii.eqb_sym, Ec. done.
  - destruct (Ascii.eqb c lbrace) eqn:Ec.
    + apply Ascii.eqb_eq in Ec as ->.
      destruct (IH _ x Hx) as [Hne [(pre & post & -> & Hc)|(g0 & mid & post & [= <-] & -> & -> & Hc)]];
        (split; [done|]); left.
      * by exists (String lbrace pre), post.
      * by exists "", post.
    + destruct (IH _ x Hx) as [Hne [(pre & post & -> & Hc)|(? & ? & ? & [=] & _)]].
      split; [done|]. left. by exists (String c pre), post.
Qed.

Context (O : SetOrder).

(** Every variable that [extract_variables] reports is a non-empty name
    without a closing brace that stands between braces in the template. *)
Theorem extract_variables_sound (template_text : string) (x : string) :
  x ∈ extract_variables O template_text ->
  x ≠ ""
  ∧ contains rbrace x = false
  ∧ ∃ pre post, template_text = pre +:+ String lbrace (x +:+ String rbrace post).
Proof.
  unfold extract_variables. rewrite list_of_set_elem. intros Hx.
  destruct (findall_from_sound _ _ _ Hx) as [Hne [(pre & post & Heq & Hc)|(? & ? & ? & [=] & _)]].
  eauto.
Qed.

(** [variables] is not read-only: an update that carries [variables] but
    no [prompt_template] stores the given list as it is, related to the
    prompt or not, and leaves the prompt alone. *)
Theorem update_template_sets_variables
    (db : TemplateStore) (template_id : UUID) (t : ContentTemplate)
    (upd : ContentTemplateUpdate) (vs : list string) :
  get_template db template_id = Some t ->
  u_prompt_template upd = None ->
  u_variables upd = Some (Some vs) ->
  u_name upd ≠ Some None -> u_language upd ≠ Some None -> u_is_active upd ≠ Some None ->
  ∃ t',
    (update_template O db template_id upd).2 = Return (Some t')
    ∧ get_template (update_template O db template_id upd).1 template_id = Some t'
    ∧ variables t' = vs
    ∧ prompt_template t' = prompt_template t.
Proof.
  intros Ht Hp Hv Hn Hl Ha. unfold update_template. rewrite Ht, Hp.
  unfold apply_update, update_variables. rewrite Hp, Hv. simpl.
  destruct (u_name upd) as [[?|]|]; [| done |];
    (destruct (u_language upd) as [[?|]|]; [| done |]);
    (destruct (u_is_active upd) as [[?|]|]; [| done |]); simpl;
    eexists; (split; [reflexivity|]);
    (split; [unfold get_template; simpl; apply lookup_insert_eq | done]).
Qed.

(** An update that fails leaves the store as it was: an unknown template
    gives [None]; a [prompt_template] that is present but [null] raises
    [TypeError] before anything is assigned; and whenever the function
    raises, the store it leaves is the one it was given. *)
Theorem update_template_failure_keeps_store
    (db : TemplateStore) (template_id : UUID) (upd : ContentTemplateUpdate) :
  (get_template db template_id = None ->
   update_template O db template_id upd = (db, Return None))
  ∧ (is_Some (get_template db template_id) -> u_prompt_template upd = Some None ->
     ∃ msg, update_template O db template_id upd = (db, Raise (mkExn TypeError msg)))
  ∧ (∀ e, (update_template O db template_id upd).2 = Raise e ->
          (update_template O db template_id upd).1 = db).
Proof.
  unfold update_template.
  destruct (get_template db template_id) as [t|]; simpl.
  - split; [done|]. split; [intros _ ->; by eexists|].
    destruct (u_prompt_template upd) as [[p|]|]; simpl; try done;
      by destruct (apply_update O t upd).
  - split; [done|]. split; [by intros [? [=]] | done].
Qed.

(** [increment_usage] is a counter: after [n] calls on a stored template
    its [usage_count] has grown by exactly [n] and its prompt and
    variables are unchanged; on an unknown template the calls do nothing. *)
Theorem increment_usage_counts (db : TemplateStore) (template_id : UUID) (n : nat) :
  (∀ t, get_template db template_id = Some t ->
     ∃ t', get_template (Nat.iter n (fun d => increment_usage d template_id) db) template_id
           = Some t'
           ∧ usage_count t' = (usage_count t + Z.of_nat n)%Z
           ∧ prompt_template t' = prompt_template t
           ∧ variables t' = variables t
           ∧ is_active t' = is_active t)
  ∧ (get_template db template_id = None ->
     Nat.iter n (fun d => increment_usage d template_id) db = db).
Proof.
  split.
  - intros t Ht. induction n as [|n (t' & Hg & Hc & Hp & Hv & Ha)].
    + exists t. simpl. split; [done|]. split; [lia | done].
    + exists (increment t').
      change (Nat.iter (S n) (fun d => increment_usage d template_id) db)
        with (increment_usage (Nat.iter n (fun d => increment_usage d template_id) db)
                              template_id).
      remember (Nat.iter n (fun d => increment_usage d template_id) db) as db' eqn:E.
      clear E. unfold increment_usage. rewrite Hg.
      split; [unfold get_template; simpl; apply lookup_insert_eq|].
      simpl. rewrite Hc. split; [lia | done].
  - intros Hno. induction n as [|n IH]; [done|].
    change (Nat.iter (S n) (fun d => increment_usage d template_id) db)
      with (increment_usage (Nat.iter n (fun d => increment_usage d template_id) db)
                            template_id).
    rewrite IH. unfold increment_usage. by rewrite Hno.
Qed.

(** [delete_template] answers whether the template was stored; afterwards
    it cannot be read, rendering it raises [ValueError], counting a use of
    it does nothing, and the other templates are as before. *)
Theorem delete_template_removes (db : TemplateStore) (template_id : UUID) (values : Dict) :
  let db' := (delete_template db template_id).1 in
  (delete_template db template_id).2 = bool_decide (is_Some (get_template db template_id))
  ∧ get_template db' template_id = None
  ∧ test_template db' template_id values
    = Rendered (Raise (mkExn ValueError
                         ("Template " +:+ str_UUID template_id +:+ " not found")))
  ∧ increment_usage db' template_id = db'
  ∧ (∀ k, k ≠ template_id -> get_template db' k = get_template db k).
Proof.
  cbv zeta.
  assert (Hgone : get_template (delete_template db template_id).1 template_id = None).
  { unfold delete_template, get_template.
    destruct (templates db !! template_id) eqn:E; simpl; [apply lookup_delete_eq | done]. }
  split.
  { unfold delete_template. by destruct (get_template db template_id). }
  split; [done|]. split; [unfold test_template; by rewrite Hgone|].
  split; [unfold increment_usage; by rewrite Hgone|].
  intros k Hk. unfold delete_template, get_template.
  destruct (templates db !! template_id) eqn:E; simpl; [by apply lookup_delete_ne | done].
Qed.

(** [test_template] turns [KeyError] alone into "Missing variable": a
    template with an empty placeholder raises [IndexError] whatever values
    are supplied, and a template that ends in a single opening brace raises
    the formatter's own [ValueError]. *)
Theorem test_template_other_errors
    (db : TemplateStore) (template_id : UUID) (t : ContentTemplate)
    (literal rest : string) (values : Dict) :
  get_template db template_id = Some t ->
  forallb_string (fun c => negb (contains c "{}")) literal = true ->
  (prompt_template t = literal +:+ String lbrace (String rbrace rest) ->
   test_template db template_id values
   = Rendered (Raise (mkExn IndexError
                        "Replacement index 0 out of range for positional args tuple")))
  ∧ (prompt_template t = literal +:+ String lbrace "" ->
     test_template db template_id values
     = Rendered (Raise (mkExn ValueError "Single '{' encountered in format string"))).
Proof.
  intros Ht Hlit. unfold test_template, format. rewrite Ht.
  split; intros ->; by rewrite format_literal.
Qed.

End TemplateMoreFacts.

Lemma extract_variables_sound_witness :
  "gift" ≠ ""
  ∧ Templates.contains Templates.rbrace "gift" = false
  ∧ ∃ pre post,
      "Hello {name}, thank you for {gift}."
      = pre +:+ String Templates.lbrace ("gift" +:+ String Templates.rbrace post).
Proof.
  apply (extract_variables_sound Scenarios.last_seen).
  vm_compute. apply list_elem_of_In. simpl. tauto.
Defined.

Lemma update_template_sets_variables_witness :
  ∃ t',
    (Templates.update_template Scenarios.last_seen Scenarios.hello_db 0%N
       (Templates.mkTemplateUpdate None None None (Some (Some ["city"])) None None None)).2
    = Return (Some t')
    ∧ Templates.variables t' = ["city"]
    ∧ Templates.prompt_template t' = "Hello {name}".
Proof.
  assert (H : ∃ t, Templates.get_template Scenarios.hello_db 0%N = Some t
                   ∧ Templates.prompt_template t = "Hello {name}") by (vm_compute; eauto).
  destruct H as (t & Ht & Hp).
  destruct (update_template_sets_variables Scenarios.last_seen Scenarios.hello_db 0%N t
              (Templates.mkTemplateUpdate None None None (Some (Some ["city"])) None None None)
              ["city"] Ht eq_refl eq_refl)
    as (t' & Hr & _ & Hv & Hp'); [done | done | done |].
  exists t'. split; [exact Hr|]. split; [exact Hv | congruence].
Defined.

Lemma test_template_other_errors_witness :
  Templates.test_template
    (Templates.create_template Scenarios.last_seen (Templates.mkStore ∅ 0%N)
       (Templates.mkTemplateCreate "Broken" "social_post" None "Dear {}, welcome" []
                                   "en" None true) 7%N).1
    0%N [("name", VStr "Ana")]
  = Templates.Rendered
      (Raise (mkExn IndexError "Replacement index 0 out of range for positional args tuple")).
Proof.
  assert (H : ∃ t, Templates.get_template
                     (Templates.create_template Scenarios.last_seen (Templates.mkStore ∅ 0%N)
                        (Templates.mkTemplateCreate "Broken" "social_post" None
                           "Dear {}, welcome" [] "en" None true) 7%N).1 0%N = Some t
                   ∧ Templates.prompt_template t
                     = "Dear " +:+ String Templates.lbrace
                                     (String Templates.rbrace ", welcome"))
    by (vm_compute; eauto).
  destruct H as (t & Ht & Hp).
  destruct (test_template_other_errors _ 0%N t "Dear " ", welcome" [("name", VStr "Ana")]
              Ht eq_refl) as [Hidx _].
  by apply Hidx.
Defined.
